(** * email-attachment-extractor: the extraction pipeline of [EmailService]

    A shallow embedding of [src/email/email.service.ts].  The service
    decodes an e-mail and looks for a JSON payload, first among the
    attachments, then behind the links of the bodies, and one hop further on
    the HTML pages those links lead to.

    Conventions of the embedding.
    - A JavaScript string is a [string]: a sequence of 8-bit code units
      (the Latin-1 range of JavaScript's 16-bit code units).
    - A dynamically typed value is a [jsval]; [null] is [JNull].
    - An [async] method is a computation in the monad [M]: it reads the
      history of the effects performed so far, appends the effects it
      performs, and either returns or throws.  [try]/[catch] is [try_catch].
    - What the service imports (JSON.parse, Buffer, URL, cheerio, axios, fs,
      mailparser) is the interface [Platform]. *)

From Stdlib Require Import List String Ascii Bool ZArith Lia DecimalString.
Import ListNotations.

Local Open Scope string_scope.
Local Open Scope Z_scope.
Local Open Scope list_scope.

(** Concatenation of strings, as in a template literal. *)
Infix "^^" := String.append (at level 60, right associativity).

(* ================================================================= *)
(** ** JavaScript strings *)

(** A word between double quotes. *)
Definition quoted (s : string) : string :=
  String (ascii_of_nat 34) (s ^^ String (ascii_of_nat 34) EmptyString).

Module Js.

(** [String.prototype.toLowerCase] on one code unit below 256: the letters
    A-Z and the Latin-1 capitals (all of 192..222 but the sign 215). *)
Definition lower_unit (c : ascii) : ascii :=
  let n := nat_of_ascii c in
  if ((65 <=? n) && (n <=? 90))%nat
     || ((192 <=? n) && (n <=? 222) && negb (n =? 215))%nat
  then ascii_of_nat (n + 32) else c.

Fixpoint toLowerCase (s : string) : string :=
  match s with
  | EmptyString => EmptyString
  | String c s' => String (lower_unit c) (toLowerCase s')
  end.

(** [s.startsWith(p)] *)
Definition startsWith (s p : string) : bool := String.prefix p s.

(** [s.includes(p)] *)
Fixpoint includes (s p : string) : bool :=
  startsWith s p ||
  match s with
  | EmptyString => false
  | String _ s' => includes s' p
  end.

(** [s.endsWith(p)] *)
Fixpoint endsWith (s p : string) : bool :=
  String.eqb s p ||
  match s with
  | EmptyString => false
  | String _ s' => endsWith s' p
  end.

(** [s.split(sep)[0]] for a separator of one code unit: what precedes the
    first occurrence of the separator, the whole string when there is none. *)
Fixpoint split_head (sep : ascii) (s : string) : string :=
  match s with
  | EmptyString => EmptyString
  | String c s' => if Ascii.eqb c sep then EmptyString
                   else String c (split_head sep s')
  end.

(** Truthiness of a string: [if (s)] holds unless [s] is empty. *)
Definition nonempty (s : string) : bool :=
  match s with EmptyString => false | String _ _ => true end.

(** Truthiness of [string | undefined] and of [string | false]. *)
Definition truthy_str (o : option string) : bool :=
  match o with Some s => nonempty s | None => false end.

End Js.

(* ================================================================= *)
(** ** Dynamically typed values *)

(** What [JSON.parse] and axios' response decoding produce.  The service
    never computes with a number, it only tests it for truthiness: numbers
    are integers here. *)
#[warnings="-register-all"]
Inductive jsval : Type :=
| JNull
| JBool (b : bool)
| JNum (n : Z)
| JStr (s : string)
| JArr (items : list jsval)
| JObj (fields : list (string * jsval)).

(** [if (v)] *)
Definition truthy (v : jsval) : bool :=
  match v with
  | JNull => false
  | JBool b => b
  | JNum n => negb (n =? 0)
  | JStr s => Js.nonempty s
  | JArr _ | JObj _ => true
  end.

(** [typeof v === 'object'] *)
Definition typeof_is_object (v : jsval) : bool :=
  match v with
  | JNull | JArr _ | JObj _ => true
  | JBool _ | JNum _ | JStr _ => false
  end.

(** [v !== null] *)
Definition not_null (v : jsval) : bool :=
  match v with JNull => false | _ => true end.

(** [typeof v === 'string'], with the string when it is one. *)
Definition as_string (v : jsval) : option string :=
  match v with JStr s => Some s | _ => None end.

(** A primitive value: anything but an object or an array. *)
Definition is_scalar (v : jsval) : bool :=
  match v with
  | JArr _ | JObj _ => false
  | _ => true
  end.

(* ================================================================= *)
(** ** The decoded message (mailparser's [ParsedMail]) *)

Record Attachment : Type := {
  contentType : string;
  filename : option string;      (* [undefined] is [None] *)
  content : string               (* the bytes of the [Buffer] *)
}.

Record ParsedMail : Type := {
  attachments : list Attachment;
  html : option string;          (* [string | false] *)
  text : option string           (* [string | undefined] *)
}.

(** [isJsonAttachment] *)
Definition isJsonAttachment (attachment : Attachment) : bool :=
  let contentType := Js.toLowerCase (contentType attachment) in
  let filename :=
    if Js.truthy_str (filename attachment)
    then match filename attachment with
         | Some f => Js.toLowerCase f
         | None => EmptyString
         end
    else EmptyString in
  Js.includes contentType "application/json" || Js.endsWith filename ".json".

(* ================================================================= *)
(** ** Effects: the history of a request, exceptions, the monad *)

Inductive level : Type := Info | Warn | Debug.

(** The three configurations [axios.get] is called with. *)
Inductive axios_config : Type :=
| ArrayBuffer      (* { responseType: 'arraybuffer' } *)
| AnyStatus5s      (* { validateStatus: () => true, timeout: 5000 } *)
| Timeout5s.       (* { timeout: 5000 } *)

Inductive event : Type :=
| Logged (lvl : level) (msg : string)
| HttpGet (config : axios_config) (url : string)
| FsExists (path : string)
| FsRead (path : string).

Definition trace : Type := list event.

Inductive exn : Type :=
| JsError (message : string)            (* SyntaxError, TypeError, AxiosError, ... *)
| NotFoundException (message : string)
| BadRequestException (message : string).

Definition message (e : exn) : string :=
  match e with
  | JsError m | NotFoundException m | BadRequestException m => m
  end.

Inductive outcome (A : Type) : Type :=
| Ok (a : A)
| Throw (e : exn).
Arguments Ok {A} a.
Arguments Throw {A} e.

(** A computation reads the history (the events before it started) and
    yields its outcome with the events it performed, oldest first. *)
Definition M (A : Type) : Type := trace -> outcome A * trace.

Definition ret {A} (a : A) : M A := fun _ => (Ok a, []).

Definition throw {A} (e : exn) : M A := fun _ => (Throw e, []).

Definition bind {A B} (m : M A) (k : A -> M B) : M B :=
  fun h =>
    match m h with
    | (Ok a, es) => let (r, es') := k a (h ++ es) in (r, es ++ es')
    | (Throw e, es) => (Throw e, es)
    end.

(** [try { m } catch (e) { handler e }] *)
Definition try_catch {A} (m : M A) (handler : exn -> M A) : M A :=
  fun h =>
    match m h with
    | (Ok a, es) => (Ok a, es)
    | (Throw e, es) => let (r, es') := handler e (h ++ es) in (r, es ++ es')
    end.

Definition emit (ev : event) : M unit := fun _ => (Ok tt, [ev]).

(** A pure call that may throw. *)
Definition lift {A} (o : outcome A) : M A := fun _ => (o, []).

Declare Scope js_scope.
Delimit Scope js_scope with js.
Notation "x <- m ;; k" := (bind m (fun x => k))
  (at level 61, m at next level, right associativity) : js_scope.
Notation "m ;; k" := (bind m (fun _ => k))
  (at level 61, right associativity) : js_scope.
Local Open Scope js_scope.

(** The value, the exception and the events of a run. *)
Definition result_of {A} (run : outcome A * trace) : outcome A := fst run.
Definition events_of {A} (run : outcome A * trace) : trace := snd run.

(** The URLs of the GET requests of a trace issued under a configuration. *)
Fixpoint requests (config : axios_config) (es : trace) : list string :=
  match es with
  | [] => []
  | HttpGet c url :: es' =>
      match c, config with
      | ArrayBuffer, ArrayBuffer | AnyStatus5s, AnyStatus5s
      | Timeout5s, Timeout5s => url :: requests config es'
      | _, _ => requests config es'
      end
  | _ :: es' => requests config es'
  end.

(** All GET requests of a trace. *)
Fixpoint all_requests (es : trace) : list string :=
  match es with
  | [] => []
  | HttpGet _ url :: es' => url :: all_requests es'
  | _ :: es' => all_requests es'
  end.

(* ================================================================= *)
(** ** What the service imports *)

Record response : Type := {
  status : Z;
  content_type : option string;   (* [headers['content-type']] *)
  data : jsval                    (* the body as axios decodes it *)
}.

Class Platform : Type := {
  (** [JSON.parse(text)] *)
  JSON_parse : string -> outcome jsval;
  (** [buffer.toString('utf-8')] *)
  Buffer_toString : string -> string;
  (** [new URL(link, base).toString()] *)
  URL_resolve : string -> string -> outcome string;
  (** cheerio: the [href] attribute of every [a] element of a document, in
      document order; [None] where the attribute is missing. *)
  anchor_hrefs : string -> list (option string);
  (** mailparser's [simpleParser] *)
  simpleParser : string -> outcome ParsedMail;
  (** The transport under axios: the answer to a GET of a URL (5 s
      timeout), given what happened before. *)
  network : trace -> string -> outcome response;
  (** [axios.get(url, { responseType: 'arraybuffer' })], down to the bytes
      of [response.data] *)
  download : trace -> string -> outcome string;
  (** [fs.existsSync], [fs.readFileSync] *)
  fs_existsSync : trace -> string -> bool;
  fs_readFileSync : trace -> string -> outcome string
}.

(* ================================================================= *)
(** ** Harvesting links *)

(** [links.add(x)] on a [Set<string>]: a JavaScript [Set] iterates in
    insertion order and ignores the insertion of a member. *)
Definition Set_add (links : list string) (x : string) : list string :=
  if existsb (String.eqb x) links then links else links ++ [x].

(** [$('a').each((_, element) => { const href = $(element).attr('href');
    if (href) links.add(href); })] over the [href]s of the anchors. *)
Definition add_hrefs (links : list string) (hrefs : list (option string))
  : list string :=
  fold_left
    (fun links href =>
       if Js.truthy_str href
       then match href with Some h => Set_add links h | None => links end
       else links)
    hrefs links.

(** [\s] on code units below 256. *)
Definition is_space (c : ascii) : bool :=
  let n := nat_of_ascii c in
  ((9 <=? n) && (n <=? 13) || (n =? 32) || (n =? 160))%nat.

(** The longest run of [[^\s]] at the head of a string. *)
Fixpoint nonspace_run (s : string) : string :=
  match s with
  | EmptyString => EmptyString
  | String c s' => if is_space c then EmptyString
                   else String c (nonspace_run s')
  end.

Fixpoint drop (n : nat) (s : string) : string :=
  match n, s with
  | O, _ => s
  | S n', String _ s' => drop n' s'
  | S _, EmptyString => EmptyString
  end.

(** A match of [/(https?:\/\/[^\s]+)/] anchored at the head of [s]. *)
Definition url_at (s : string) : option string :=
  let after scheme :=
    if Js.startsWith s scheme
    then let run := nonspace_run (drop (String.length scheme) s) in
         if Js.nonempty run then Some (scheme ^^ run) else None
    else None in
  match after "https://" with
  | Some m => Some m
  | None => after "http://"
  end.

(** [text.match(/(https?:\/\/[^\s]+)/g)]: the matches from left to right,
    each search resuming after the previous match; [skip] counts the code
    units of the last match still to pass.  No match ([null]) is [[]]. *)
Fixpoint scan_urls (s : string) (skip : nat) : list string :=
  match s with
  | EmptyString => []
  | String _ s' =>
      match skip with
      | S k => scan_urls s' k
      | O => match url_at s with
             | Some m => m :: scan_urls s' (String.length m - 1)
             | None => scan_urls s' 0
             end
      end
  end.

Definition match_urls (text : string) : list string := scan_urls text 0.

(** Truthiness of the bodies: [if (html)], [if (text)]. *)
Definition body (b : option string) : option string :=
  if Js.truthy_str b then b else None.

Section Service.

Context {P : Platform}.

(** The candidate link strings of a pair of bodies, in the order in which
    they enter the set: first the anchors of the HTML body, then the URLs
    of the text body. *)
Definition html_candidates (html : option string) : list (option string) :=
  match body html with
  | Some h => anchor_hrefs h
  | None => []
  end.

Definition text_candidates (text : option string) : list string :=
  match body text with
  | Some t => match_urls t
  | None => []
  end.

(** Lines 106-124 of [extractJsonFromLinks]: the set [links]. *)
Definition harvestLinks (html text : option string) : list string :=
  let links := add_hrefs [] (html_candidates html) in
  fold_left Set_add (text_candidates text) links.

(* ================================================================= *)
(** ** The service *)

Definition log (lvl : level) (msg : string) : M unit := emit (Logged lvl msg).

(** [validateStatus]: axios' default accepts 2xx only. *)
Definition validateStatus (config : axios_config) (status : Z) : bool :=
  match config with
  | AnyStatus5s => true
  | ArrayBuffer | Timeout5s => (200 <=? status) && (status <? 300)
  end.

Definition decimal (z : Z) : string :=
  DecimalString.NilZero.string_of_int (Z.to_int z).

(** [axios.get(url, config)] for the two configurations that decode the
    body. *)
Definition axios_get (config : axios_config) (url : string) : M response :=
  fun h =>
    (match network h url with
     | Ok r => if validateStatus config (status r) then Ok r
               else Throw (JsError ("Request failed with status code "
                                      ^^ decimal (status r)))
     | Throw e => Throw e
     end, [HttpGet config url]).

(** [headers['content-type'] || ''] *)
Definition header_or_empty (h : option string) : string :=
  match h with
  | Some s => if Js.nonempty s then s else EmptyString
  | None => EmptyString
  end.

Definition undefined_or (o : option string) : string :=
  match o with Some s => s | None => "undefined" end.

(** The loop of [extractJsonFromAttachments]. *)
Fixpoint attachments_loop (atts : list Attachment) : M jsval :=
  match atts with
  | [] => ret JNull
  | attachment :: rest =>
      if isJsonAttachment attachment then
        match JSON_parse (Buffer_toString (content attachment)) with
        | Ok v => ret v
        | Throw e =>
            log Warn ("Found JSON attachment "
                        ^^ undefined_or (filename attachment)
                        ^^ " but failed to parse: " ^^ message e) ;;
            attachments_loop rest
        end
      else attachments_loop rest
  end.

Definition extractJsonFromAttachments (parsed : ParsedMail) : M jsval :=
  if (List.length (attachments parsed) =? 0)%nat then ret JNull
  else attachments_loop (attachments parsed).

(** The acceptance test of [extractJsonFromHtmlPage]. *)
Definition page_accepts (r : response) : bool :=
  (status r =? 200)
  && (Js.includes (header_or_empty (content_type r)) "application/json"
      || typeof_is_object (data r)).

(** The heuristic of [extractJsonFromHtmlPage]:
    [absoluteUrl.toLowerCase().split('?')[0].endsWith('.json')]. *)
Definition looks_like_json (absoluteUrl : string) : bool :=
  Js.endsWith (Js.split_head "?" (Js.toLowerCase absoluteUrl)) ".json".

(** The [try] block of [extractJsonFromHtmlPage] on one candidate: the
    accepted body, or [None] when the candidate is refused or the block is
    left through its (empty) [catch]. *)
Definition tryIndirectLink (absoluteUrl : string) : M (option jsval) :=
  try_catch
    (log Debug ("Checking indirect link: " ^^ absoluteUrl) ;;
     jsonResponse <- axios_get Timeout5s absoluteUrl ;;
     if page_accepts jsonResponse
     then ret (Some (data jsonResponse))
     else ret None)
    (fun _ => ret None).

(** The loop of [extractJsonFromHtmlPage] over the links of the page. *)
Fixpoint page_loop (baseUrl : string) (links : list string) : M jsval :=
  match links with
  | [] => ret JNull
  | link :: rest =>
      match URL_resolve link baseUrl with
      | Throw _ => page_loop baseUrl rest                 (* continue *)
      | Ok absoluteUrl =>
          if looks_like_json absoluteUrl then
            found <- tryIndirectLink absoluteUrl ;;
            match found with
            | Some v => ret v
            | None => page_loop baseUrl rest
            end
          else page_loop baseUrl rest
      end
  end.

Definition extractJsonFromHtmlPage (html baseUrl : string) : M jsval :=
  let links := add_hrefs [] (anchor_hrefs html) in
  page_loop baseUrl links.

(** The "direct JSON" test of [checkLinkForJson]. *)
Definition direct_json (r : response) : bool :=
  Js.includes (header_or_empty (content_type r)) "application/json"
  || (typeof_is_object (data r) && not_null (data r)).

(** How the [try] block of [checkLinkForJson] is left: by [return v], by
    [return this.extractJsonFromHtmlPage(page, url)] (the promise is
    returned, not awaited: the chase runs outside the [try]), or by falling
    out of the block to the final [return null]. *)
Inductive completion : Type :=
| Return (v : jsval)
| ReturnChase (page : string)
| FallThrough.

(** The [try] block of [checkLinkForJson] with its [catch]. *)
Definition tryLink (url : string) : M completion :=
  try_catch
    (log Debug ("Checking link: " ^^ url) ;;
     response <- axios_get AnyStatus5s url ;;
     if negb (status response =? 200) then ret (Return JNull)
     else if direct_json response then ret (Return (data response))
     else if Js.includes (header_or_empty (content_type response)) "text/html"
     then match as_string (data response) with
          | Some page => ret (ReturnChase page)
          | None => ret FallThrough
          end
     else ret FallThrough)
    (fun error =>
       log Debug ("Failed to check link " ^^ url ^^ ": " ^^ message error) ;;
       ret FallThrough).

Definition checkLinkForJson (url : string) : M jsval :=
  c <- tryLink url ;;
  match c with
  | Return v => ret v
  | ReturnChase page => extractJsonFromHtmlPage page url
  | FallThrough => ret JNull
  end.

(** The loop of [extractJsonFromLinks] over the harvested set. *)
Fixpoint links_loop (links : list string) : M jsval :=
  match links with
  | [] => ret JNull
  | link :: rest =>
      if Js.startsWith link "mailto:" || Js.startsWith link "#"
      then links_loop rest                                 (* continue *)
      else
        result <- checkLinkForJson link ;;
        if truthy result then ret result else links_loop rest
  end.

Definition extractJsonFromLinks (html text : option string) : M jsval :=
  links_loop (harvestLinks html text).

Definition getEmailContent (source : string) : M string :=
  if Js.startsWith source "http://" || Js.startsWith source "https://" then
    try_catch
      (fun h => (download h source, [HttpGet ArrayBuffer source]))
      (fun error =>
         throw (BadRequestException
                  ("Failed to fetch email from URL: " ^^ message error)))
  else
    there <- (fun h => (Ok (fs_existsSync h source), [FsExists source])) ;;
    if negb there
    then throw (NotFoundException ("File not found at path: " ^^ source))
    else
      try_catch
        (fun h => (fs_readFileSync h source, [FsRead source]))
        (fun error =>
           throw (BadRequestException
                    ("Failed to read file: " ^^ message error))).

(** Lines 28-45 of [processEmail]: the strategies, on the decoded message. *)
Definition extractionStrategy (parsed : ParsedMail) : M jsval :=
  log Info "Checking attachments for JSON..." ;;
  attachmentJson <- extractJsonFromAttachments parsed ;;
  if truthy attachmentJson then
    log Info "JSON found in attachments." ;;
    ret attachmentJson
  else
    log Info "Checking links for JSON..." ;;
    linkJson <- extractJsonFromLinks (html parsed) (text parsed) ;;
    if truthy linkJson then
      log Info "JSON found via links." ;;
      ret linkJson
    else
      throw (NotFoundException "No JSON found in email attachments or links").

Definition processEmail (source : string) : M jsval :=
  log Info ("Processing email from source: " ^^ source) ;;
  emailBuffer <- getEmailContent source ;;
  parsed <- try_catch
    (lift (simpleParser emailBuffer))
    (fun error =>
       throw (BadRequestException
                ("Failed to parse email: " ^^ message error))) ;;
  extractionStrategy parsed.

(** The controller: [GET /email/json?url=...&path=...]. *)
Record ExtractEmailDto : Type := {
  url : option string;
  path : option string
}.

Definition extractJson (query : ExtractEmailDto) : M jsval :=
  let source := if Js.truthy_str (url query) then url query else path query in
  if negb (Js.truthy_str source)
  then throw (BadRequestException
                ("Either " ^^ quoted "url" ^^ " or " ^^ quoted "path"
                   ^^ " query parameter is required"))
  else match source with
       | Some s => processEmail s
       | None => ret JNull   (* unreachable: [source] is truthy *)
       end.

End Service.

(* ================================================================= *)
(** ** The vocabulary of the specification *)

Module Spec.

(** The capital letters among the code units below 256: A-Z, and the
    Latin-1 capitals from 192 to 222 (215 is the multiplication sign).
    The small letter of a capital is 32 code units further. *)
Definition capital (n : nat) : bool :=
  ((65 <=? n) && (n <=? 90) || (192 <=? n) && (n <=? 222) && negb (n =? 215))%nat.

(** Two code units are the same letter: they are equal, or one is the
    capital of the other. *)
Definition same_letter (c d : ascii) : bool :=
  let m := nat_of_ascii c in
  let n := nat_of_ascii d in
  ((m =? n) || capital m && (n =? m + 32) || capital n && (m =? n + 32))%nat.

(** Two strings are equal up to the case of their letters. *)
Fixpoint eq_ignore_case (a b : string) : Prop :=
  match a, b with
  | EmptyString, EmptyString => True
  | String c a', String d b' => same_letter c d = true /\ eq_ignore_case a' b'
  | _, _ => False
  end.

(** [s] contains a substring equal to [p] up to case. *)
Definition contains_ignore_case (s p : string) : Prop :=
  exists pre mid post, s = pre ^^ mid ^^ post /\ eq_ignore_case mid p.

(** [s] ends with a substring equal to [p] up to case. *)
Definition ends_ignore_case (s p : string) : Prop :=
  exists pre mid, s = pre ^^ mid /\ eq_ignore_case mid p.

(** The classification rule of the Attachment Scanner. *)
Definition json_candidate (a : Attachment) : Prop :=
  contains_ignore_case (contentType a) "application/json"
  \/ exists f, filename a = Some f /\ ends_ignore_case f ".json".

(** A string without a question mark. *)
Definition no_question (s : string) : Prop :=
  forall a b, s <> a ^^ String "?" b.

(** A URL with its query string stripped: the URL itself when it has no
    question mark, else what precedes the first one. *)
Definition query_stripped (u stripped : string) : Prop :=
  (u = stripped /\ no_question u)
  \/ (exists q, u = stripped ^^ String "?" q /\ no_question stripped).

(** The distinct elements of a list, each at its first occurrence. *)
Fixpoint first_occurrences (seen : list string) (l : list string)
  : list string :=
  match l with
  | [] => []
  | x :: l' => if in_dec string_dec x seen then first_occurrences seen l'
               else x :: first_occurrences (x :: seen) l'
  end.

(** Position of the first occurrence of [x] in [l] ([length l] if none). *)
Fixpoint first_index (x : string) (l : list string) : nat :=
  match l with
  | [] => O
  | y :: l' => if string_dec x y then O else S (first_index x l')
  end.

(** The [href]s that are present and not empty. *)
Definition present (hrefs : list (option string)) : list string :=
  flat_map (fun h => match h with
                     | Some s => if Js.nonempty s then [s] else []
                     | None => []
                     end) hrefs.

(** The candidate link strings of the two bodies, as inserted: every
    non-empty [href] of the HTML body, then every URL of the text body. *)
Definition inserted {P : Platform} (html text : option string) : list string :=
  present (html_candidates html) ++ text_candidates text.

(** The first attachment of a list classified as a JSON candidate. *)
Definition first_classified (atts : list Attachment) : option Attachment :=
  find isJsonAttachment atts.

(** The content of an attachment, decoded and parsed. *)
Definition parse_attachment {P : Platform} (a : Attachment) : outcome jsval :=
  JSON_parse (Buffer_toString (content a)).

Definition parsable {P : Platform} (a : Attachment) : bool :=
  match parse_attachment a with Ok _ => true | Throw _ => false end.

(** The first attachment classified as a JSON candidate whose content
    parses. *)
Definition first_parsable {P : Platform} (atts : list Attachment)
  : option Attachment :=
  find (fun a => isJsonAttachment a && parsable a) atts.

(** The falsy primitive values JSON can denote. *)
Definition falsy_scalar (v : jsval) : Prop :=
  v = JNull \/ v = JBool false \/ v = JNum 0 \/ v = JStr EmptyString.

(** The parsed content of the first attachment, in document order, that is
    classified as a JSON candidate and whose content parses; [null] when
    there is none. *)
Definition first_parsable_value {P : Platform} (atts : list Attachment)
  : jsval :=
  match find (fun a => isJsonAttachment a && parsable a) atts with
  | Some a => match parse_attachment a with Ok v => v | Throw _ => JNull end
  | None => JNull
  end.

(** The warnings of a scan: one for every classified attachment that fails
    to parse, up to the first one that parses. *)
Fixpoint parse_warnings {P : Platform} (atts : list Attachment) : trace :=
  match atts with
  | [] => []
  | a :: rest =>
      if isJsonAttachment a then
        match parse_attachment a with
        | Ok _ => []
        | Throw e =>
            Logged Warn ("Found JSON attachment " ^^ undefined_or (filename a)
                           ^^ " but failed to parse: " ^^ message e)
            :: parse_warnings rest
        end
      else parse_warnings rest
  end.

(** A link the Link Resolver is not to see. *)
Definition discarded (link : string) : bool :=
  Js.startsWith link "mailto:" || Js.startsWith link "#".

(** The links of a page that resolve against the base and pass the
    heuristic, resolved, in the order of the page. *)
Definition page_candidates {P : Platform} (baseUrl : string)
    (links : list string) : list string :=
  flat_map (fun link => match URL_resolve link baseUrl with
                        | Ok u => if looks_like_json u then [u] else []
                        | Throw _ => []
                        end) links.

(** [v] is the decoded body of one answer of the network. *)
Definition body_of_one_answer {P : Platform} (v : jsval) : Prop :=
  exists h u r, network h u = Ok r /\ data r = v.

(** [v] is the parsed content of one attachment of the list. *)
Definition content_of_one_attachment {P : Platform}
    (atts : list Attachment) (v : jsval) : Prop :=
  exists a, In a atts /\ isJsonAttachment a = true
            /\ parse_attachment a = Ok v.

End Spec.

(* ================================================================= *)
(** ** Summaries of the two [try] blocks *)

Module Run.

Definition checking (url : string) : event :=
  Logged Debug ("Checking link: " ^^ url).

Definition checking_indirect (url : string) : event :=
  Logged Debug ("Checking indirect link: " ^^ url).

Definition failed (url : string) (e : exn) : event :=
  Logged Debug ("Failed to check link " ^^ url ^^ ": " ^^ message e).

Definition processing (source : string) : event :=
  Logged Info ("Processing email from source: " ^^ source).
Definition checking_attachments : event :=
  Logged Info "Checking attachments for JSON...".
Definition found_in_attachments : event :=
  Logged Info "JSON found in attachments.".
Definition checking_links : event := Logged Info "Checking links for JSON...".
Definition found_via_links : event := Logged Info "JSON found via links.".
Definition no_json_found : exn :=
  NotFoundException "No JSON found in email attachments or links".

(** What the chaser makes of the answer to its GET. *)
Definition page_answer {P : Platform} (h : trace) (u : string)
  : option jsval :=
  match network (h ++ [checking_indirect u]) u with
  | Ok r => if page_accepts r then Some (data r) else None
  | Throw _ => None
  end.

(** How the resolver's [try] block is left. *)
Definition link_completion {P : Platform} (h : trace) (u : string)
  : completion :=
  match network (h ++ [checking u]) u with
  | Throw _ => FallThrough
  | Ok r =>
      if negb (status r =? 200) then Return JNull
      else if direct_json r then Return (data r)
      else if Js.includes (header_or_empty (content_type r)) "text/html"
      then match as_string (data r) with
           | Some page => ReturnChase page
           | None => FallThrough
           end
      else FallThrough
  end.

(** The events of the resolver's [try] block and [catch]. *)
Definition link_events {P : Platform} (h : trace) (u : string) : trace :=
  checking u :: HttpGet AnyStatus5s u ::
  match network (h ++ [checking u]) u with
  | Throw e => [failed u e]
  | Ok _ => []
  end.

End Run.

(* ================================================================= *)
(** ** A test platform

    A platform on which the service can be run inside Rocq: every import is
    a finite table that holds, for the few inputs of the examples below,
    what the real library answers on them.  The theorems of this file hold
    on every platform; this one instantiates them. *)

Module Fixture.

Fixpoint lookup {A} (k : string) (table : list (string * A)) : option A :=
  match table with
  | [] => None
  | (k', a) :: table' => if String.eqb k k' then Some a else lookup k table'
  end.

Definition or_throw {A} (o : option A) (msg : string) : outcome A :=
  match o with Some a => Ok a | None => Throw (JsError msg) end.

(** JSON documents and their values. *)
Definition documents : list (string * jsval) :=
  [ ("{" ^^ quoted "a" ^^ ":1}", JObj [("a", JNum 1)]);
    ("{" ^^ quoted "ok" ^^ ":true}", JObj [("ok", JBool true)]);
    ("[1,2,3]", JArr [JNum 1; JNum 2; JNum 3]);
    ("{}", JObj []);
    ("0", JNum 0);
    ("7", JNum 7);
    ("false", JBool false);
    ("true", JBool true);
    ("null", JNull);
    (quoted EmptyString, JStr EmptyString);
    (quoted "seven", JStr "seven") ].

(** HTML documents and the [href]s of their anchors. *)
Definition pages : list (string * list (option string)) :=
  [ ("<a href=https://host/file.json>file</a>",
     [Some "https://host/file.json"]);
    ("<a href=https://host/page.html>page</a>",
     [Some "https://host/page.html"]);
    ("<a href=/assets/out.json>out</a>", [Some "/assets/out.json"]);
    ("<a href=data/export.json?v=2>export</a>",
     [Some "data/export.json?v=2"]);
    ("<a href=mailto:ops@host>ops</a><a href=#top>top</a><a href=https://host/file.json>file</a>",
     [Some "mailto:ops@host"; Some "#top"; Some "https://host/file.json"]);
    ("<a href=https://host/down>1</a><a href=https://host/file.json>2</a>",
     [Some "https://host/down"; Some "https://host/file.json"]);
    ("<a href=https://host/a>1</a><a name=x>2</a><a href=HTTPS://HOST/A>3</a><a href=https://host/a>4</a><a href=>5</a>",
     [Some "https://host/a"; None; Some "HTTPS://HOST/A";
      Some "https://host/a"; Some EmptyString]);
    ("<a href=http://[>bad</a><a href=/void.json>void</a><a href=/assets/out.json>out</a>",
     [Some "http://["; Some "/void.json"; Some "/assets/out.json"]);
    ("<a href=/down.json>down</a><a href=/assets/out.json>out</a>",
     [Some "/down.json"; Some "/assets/out.json"]) ].

(** [new URL(link, base).toString()], keyed by [link] then [base]. *)
Definition resolutions : list (string * list (string * string)) :=
  [ ("/assets/out.json",
     [("https://host/page.html", "https://host/assets/out.json");
      ("https://host/chase.html", "https://host/assets/out.json");
      ("https://host/retry.html", "https://host/assets/out.json")]);
    ("/void.json", [("https://host/chase.html", "https://host/void.json")]);
    ("/down.json", [("https://host/retry.html", "https://host/down.json")]);
    ("data/export.json?v=2",
     [("https://example.com/landing",
       "https://example.com/data/export.json?v=2")]) ].

Definition resolve (link base : string) : outcome string :=
  match lookup link resolutions with
  | Some by_base => or_throw (lookup base by_base) "Invalid URL"
  | None => Throw (JsError "Invalid URL")
  end.

(** The web: what a GET of a URL answers; any other host is unreachable. *)
Definition web : list (string * outcome response) :=
  [ ("https://host/file.json",
     Ok {| status := 200; content_type := Some "application/json";
           data := JArr [JNum 1; JNum 2; JNum 3] |});
    ("https://host/page.html",
     Ok {| status := 200; content_type := Some "text/html; charset=utf-8";
           data := JStr "<a href=/assets/out.json>out</a>" |});
    ("https://host/chase.html",
     Ok {| status := 200; content_type := Some "text/html";
           data := JStr "<a href=http://[>bad</a><a href=/void.json>void</a><a href=/assets/out.json>out</a>" |});
    ("https://host/retry.html",
     Ok {| status := 200; content_type := Some "text/html";
           data := JStr "<a href=/down.json>down</a><a href=/assets/out.json>out</a>" |});
    ("https://host/assets/out.json",
     Ok {| status := 200; content_type := Some "application/json";
           data := JObj [("ok", JBool true)] |});
    ("https://host/void.json",
     Ok {| status := 200; content_type := Some "text/plain";
           data := JNull |});
    ("https://host/moved",
     Ok {| status := 301; content_type := Some "application/json";
           data := JObj [("moved", JBool true)] |});
    ("https://example.com/landing",
     Ok {| status := 200; content_type := Some "text/html";
           data := JStr "<a href=data/export.json?v=2>export</a>" |});
    ("https://example.com/data/export.json?v=2",
     Ok {| status := 200; content_type := Some "application/json";
           data := JObj [] |});
    ("https://host/down", Throw (JsError "timeout of 5000ms exceeded"));
    ("https://host/down.json", Throw (JsError "timeout of 5000ms exceeded")) ].

Definition get (url : string) : outcome response :=
  match lookup url web with
  | Some answer => answer
  | None => Throw (JsError "getaddrinfo ENOTFOUND")
  end.

(** Attachments. *)
Definition data_json : Attachment :=
  {| contentType := "application/json"; filename := Some "data.json";
     content := "{" ^^ quoted "a" ^^ ":1}" |}.

Definition broken_json : Attachment :=
  {| contentType := "text/plain"; filename := Some "Report.JSON";
     content := "not valid json" |}.

Definition list_json : Attachment :=
  {| contentType := "Application/JSON; charset=utf-8"; filename := None;
     content := "[1,2,3]" |}.

Definition zero_json : Attachment :=
  {| contentType := "application/json"; filename := Some "zero.json";
     content := "0" |}.

Definition seven_json : Attachment :=
  {| contentType := "application/json"; filename := Some "seven.json";
     content := "7" |}.

Definition picture : Attachment :=
  {| contentType := "image/png"; filename := Some "logo.png";
     content := "PNG" |}.

(** Decoded messages, keyed by the bytes of the [.eml] file, and the files
    they are read from. *)
Definition mails : list (string * ParsedMail) :=
  [ ("attachment.eml",
     {| attachments := [picture; data_json]; html := None; text := None |});
    ("broken-then-list.eml",
     {| attachments := [broken_json; list_json];
        html := None; text := None |});
    ("broken.eml",
     {| attachments := [broken_json]; html := None; text := None |});
    ("zero.eml",
     {| attachments := [zero_json]; html := None; text := None |});
    ("seven.eml",
     {| attachments := [seven_json];
        html := Some "<a href=https://host/file.json>file</a>";
        text := None |});
    ("attachment-and-link.eml",
     {| attachments := [data_json];
        html := Some "<a href=https://host/file.json>file</a>";
        text := Some "see https://host/page.html" |});
    ("link-direct.eml",
     {| attachments := [];
        html := Some "<a href=https://host/file.json>file</a>";
        text := None |});
    ("link-indirect.eml",
     {| attachments := [];
        html := Some "<a href=https://host/page.html>page</a>";
        text := None |});
    ("down-then-direct.eml",
     {| attachments := [];
        html := Some "<a href=https://host/down>1</a><a href=https://host/file.json>2</a>";
        text := None |});
    ("empty.eml",
     {| attachments := []; html := None; text := None |}) ].

Definition files : list (string * string) :=
  map (fun m => ("test/fixtures/" ^^ fst m, fst m)) mails.

Definition platform : Platform := {|
  JSON_parse := fun s => or_throw (lookup s documents) "Unexpected token";
  Buffer_toString := fun bytes => bytes;
  URL_resolve := resolve;
  anchor_hrefs := fun html => match lookup html pages with
                              | Some hrefs => hrefs
                              | None => []
                              end;
  simpleParser := fun bytes => or_throw (lookup bytes mails) "malformed";
  network := fun _ => get;
  download := fun _ url => Throw (JsError "getaddrinfo ENOTFOUND");
  fs_existsSync := fun _ path => match lookup path files with
                                 | Some _ => true
                                 | None => false
                                 end;
  fs_readFileSync := fun _ path => or_throw (lookup path files) "EACCES"
|}.

End Fixture.

(* ================================================================= *)
(** ** Further vocabulary: sources, URLs in text, histories *)

Module More.

(** A source that [getEmailContent] fetches over the network. *)
Definition remote (source : string) : bool :=
  Js.startsWith source "http://" || Js.startsWith source "https://".

(** An exception the service raises on purpose: one of the two HTTP
    exceptions, not a raw JavaScript error. *)
Definition classified (e : exn) : Prop :=
  match e with
  | JsError _ => False
  | NotFoundException _ | BadRequestException _ => True
  end.

(** No code unit of the string is white space. *)
Fixpoint no_space (s : string) : bool :=
  match s with
  | EmptyString => true
  | String c s' => negb (is_space c) && no_space s'
  end.

(** The string is empty or begins with white space. *)
Definition at_space (s : string) : bool :=
  match s with
  | EmptyString => true
  | String c _ => is_space c
  end.

(** A file-system access. *)
Definition is_fs (ev : event) : bool :=
  match ev with
  | FsExists _ | FsRead _ => true
  | _ => false
  end.

(** Every GET fails at the transport. *)
Definition offline (P : Platform) : Prop :=
  forall h u, exists e, @network P h u = Throw e.

(** The loop of the chaser, over the candidates of the page. *)
Fixpoint candidates_loop {P : Platform} (candidates : list string)
  : M jsval :=
  match candidates with
  | [] => ret JNull
  | u :: rest =>
      bind (tryIndirectLink u)
           (fun found => match found with
                         | Some v => ret v
                         | None => candidates_loop rest
                         end)
  end.

(** A platform like the test platform, cut off from the network. *)
Definition unplugged : Platform := {|
  JSON_parse := @JSON_parse Fixture.platform;
  Buffer_toString := @Buffer_toString Fixture.platform;
  URL_resolve := @URL_resolve Fixture.platform;
  anchor_hrefs := @anchor_hrefs Fixture.platform;
  simpleParser := @simpleParser Fixture.platform;
  network := fun _ _ => Throw (JsError "getaddrinfo ENOTFOUND");
  download := fun _ _ => Throw (JsError "getaddrinfo ENOTFOUND");
  fs_existsSync := @fs_existsSync Fixture.platform;
  fs_readFileSync := @fs_readFileSync Fixture.platform
|}.

(** A platform like the test platform, on which every GET gets the same
    answer. *)
Definition constant_web (r : response) : Platform := {|
  JSON_parse := @JSON_parse Fixture.platform;
  Buffer_toString := @Buffer_toString Fixture.platform;
  URL_resolve := @URL_resolve Fixture.platform;
  anchor_hrefs := @anchor_hrefs Fixture.platform;
  simpleParser := @simpleParser Fixture.platform;
  network := fun _ _ => Ok r;
  download := @download Fixture.platform;
  fs_existsSync := @fs_existsSync Fixture.platform;
  fs_readFileSync := @fs_readFileSync Fixture.platform
|}.

(** The links the loop of the link strategies hands to the resolver. *)
Definition kept (links : list string) : list string :=
  filter (fun l => negb (Spec.discarded l)) links.

(** An attachment that holds the JSON value [null]. *)
Definition null_json : Attachment :=
  {| contentType := "application/json"; filename := Some "null.json";
     content := "null" |}.

(** Two more messages: an attachment that holds 0 beside a link that leads
    to JSON; and a link to a page that leads to JSON, before a link that
    leads to JSON directly. *)
Definition zero_and_link : ParsedMail :=
  {| attachments := [Fixture.zero_json];
     html := Some "<a href=https://host/file.json>file</a>";
     text := None |}.

Definition page_then_direct : ParsedMail :=
  {| attachments := [];
     html := Some "<a href=https://host/page.html>page</a>";
     text := Some "or https://host/file.json" |}.

Definition more_mails : list (string * ParsedMail) :=
  [ ("zero-and-link.eml", zero_and_link);
    ("page-then-direct.eml", page_then_direct) ].

Definition more_files : list (string * string) :=
  map (fun m => ("test/fixtures/" ^^ fst m, fst m)) more_mails.

(** The test platform with the two messages in its files. *)
Definition mailbox : Platform := {|
  JSON_parse := @JSON_parse Fixture.platform;
  Buffer_toString := @Buffer_toString Fixture.platform;
  URL_resolve := @URL_resolve Fixture.platform;
  anchor_hrefs := @anchor_hrefs Fixture.platform;
  simpleParser := fun bytes =>
    match Fixture.lookup bytes more_mails with
    | Some m => Ok m
    | None => @simpleParser Fixture.platform bytes
    end;
  network := @network Fixture.platform;
  download := @download Fixture.platform;
  fs_existsSync := fun h path =>
    match Fixture.lookup path more_files with
    | Some _ => true
    | None => @fs_existsSync Fixture.platform h path
    end;
  fs_readFileSync := fun h path =>
    match Fixture.lookup path more_files with
    | Some bytes => Ok bytes
    | None => @fs_readFileSync Fixture.platform h path
    end
|}.

End More.

(* ================================================================= *)
(** ** The model at work *)

Example toLowerCase_mixed :
  Js.toLowerCase "Report.JSON?V=2" = "report.json?v=2".
Proof. reflexivity. Qed.

Example split_head_query :
  Js.split_head "?" "https://host/a.json?v=2&w=?" = "https://host/a.json".
Proof. reflexivity. Qed.

Example match_urls_text :
  match_urls "see https://host/page.html, or http://a.b/c?d=1#x; not https:// nor ftp://x"
  = ["https://host/page.html,"; "http://a.b/c?d=1#x;"].
Proof. vm_compute. reflexivity. Qed.

Example looks_like_json_cases :
  looks_like_json "https://host/Data.JSON?download=1" = true
  /\ looks_like_json "https://host/data.json#top" = false
  /\ looks_like_json "https://host/data.jsonl" = false.
Proof. vm_compute. auto. Qed.

(** The end-to-end scenarios: an attachment, a direct link, an indirect
    link, nothing at all, and an attachment that is classified but does
    not parse. *)
Example scenario_attachment :
  result_of (@processEmail Fixture.platform "test/fixtures/attachment.eml" [])
  = Ok (JObj [("a", JNum 1)]).
Proof. vm_compute. reflexivity. Qed.

Example scenario_direct_link :
  result_of (@processEmail Fixture.platform "test/fixtures/link-direct.eml" [])
  = Ok (JArr [JNum 1; JNum 2; JNum 3]).
Proof. vm_compute. reflexivity. Qed.

Example scenario_indirect_link :
  @processEmail Fixture.platform "test/fixtures/link-indirect.eml" []
  = (Ok (JObj [("ok", JBool true)]),
     [Run.processing "test/fixtures/link-indirect.eml";
      FsExists "test/fixtures/link-indirect.eml";
      FsRead "test/fixtures/link-indirect.eml";
      Run.checking_attachments; Run.checking_links;
      Run.checking "https://host/page.html";
      HttpGet AnyStatus5s "https://host/page.html";
      Run.checking_indirect "https://host/assets/out.json";
      HttpGet Timeout5s "https://host/assets/out.json";
      Run.found_via_links]).
Proof. vm_compute. reflexivity. Qed.

Example scenario_nothing :
  result_of (@processEmail Fixture.platform "test/fixtures/empty.eml" [])
  = Throw Run.no_json_found.
Proof. vm_compute. reflexivity. Qed.

Example scenario_broken_attachment :
  @processEmail Fixture.platform "test/fixtures/broken.eml" []
  = (Throw Run.no_json_found,
     [Run.processing "test/fixtures/broken.eml";
      FsExists "test/fixtures/broken.eml";
      FsRead "test/fixtures/broken.eml";
      Run.checking_attachments;
      Logged Warn "Found JSON attachment Report.JSON but failed to parse: Unexpected token";
      Run.checking_links]).
Proof. vm_compute. reflexivity. Qed.

Example scenario_missing_file :
  result_of (@processEmail Fixture.platform "test/fixtures/nothing.eml" [])
  = Throw (NotFoundException
             "File not found at path: test/fixtures/nothing.eml").
Proof. vm_compute. reflexivity. Qed.

Example scenario_no_source :
  result_of (@extractJson Fixture.platform
               {| url := Some EmptyString; path := None |} [])
  = Throw (BadRequestException
             ("Either " ^^ quoted "url" ^^ " or " ^^ quoted "path"
                ^^ " query parameter is required")).
Proof. vm_compute. reflexivity. Qed.

(* ================================================================= *)
(** ** Strings *)

Section StringFacts.

Lemma append_empty_r (s : string) : s ^^ EmptyString = s.
Proof. induction s as [|c s IH]; simpl; [reflexivity | now rewrite IH]. Qed.

Lemma append_assoc (a b c : string) : (a ^^ b) ^^ c = a ^^ b ^^ c.
Proof. induction a as [|x a IH]; simpl; [reflexivity | now rewrite IH]. Qed.

Lemma startsWith_spec (s p : string) :
  Js.startsWith s p = true <-> exists post, s = p ^^ post.
Proof.
  unfold Js.startsWith. revert s.
  induction p as [|c p IH]; intros s.
  - split; [intros _; now exists s | intros _; now destruct s].
  - destruct s as [|d s]; simpl.
    + split; [discriminate | intros [post H]; discriminate].
    + destruct (ascii_dec c d) as [->|Hne].
      * rewrite IH. split; intros [post H]; exists post.
        -- now rewrite H.
        -- now inversion H.
      * split; [discriminate | intros [post H]; inversion H; congruence].
Qed.

Lemma includes_spec (s p : string) :
  Js.includes s p = true <-> exists pre post, s = pre ^^ p ^^ post.
Proof.
  induction s as [|c s IH]; cbn [Js.includes Js.endsWith].
  - rewrite orb_false_r, startsWith_spec. split.
    + intros [post H]. now exists EmptyString, post.
    + intros [pre [post H]]. destruct pre; [now exists post | discriminate].
  - rewrite orb_true_iff, startsWith_spec, IH. split.
    + intros [[post H] | [pre [post H]]].
      * now exists EmptyString, post.
      * exists (String c pre), post. simpl. now rewrite H.
    + intros [pre [post H]]. destruct pre as [|d pre].
      * left. now exists post.
      * right. exists pre, post. simpl in H. now inversion H.
Qed.

Lemma endsWith_spec (s p : string) :
  Js.endsWith s p = true <-> exists pre, s = pre ^^ p.
Proof.
  induction s as [|c s IH]; cbn [Js.includes Js.endsWith].
  - rewrite orb_false_r, String.eqb_eq. split.
    + intros <-. now exists EmptyString.
    + intros [pre H]. destruct pre; [assumption | discriminate].
  - rewrite orb_true_iff, String.eqb_eq, IH. split.
    + intros [<- | [pre H]].
      * now exists EmptyString.
      * exists (String c pre). simpl. now rewrite H.
    + intros [pre H]. destruct pre as [|d pre].
      * now left.
      * right. exists pre. simpl in H. now inversion H.
Qed.

Lemma toLowerCase_app (a b : string) :
  Js.toLowerCase (a ^^ b) = Js.toLowerCase a ^^ Js.toLowerCase b.
Proof. induction a as [|c a IH]; simpl; [reflexivity | now rewrite IH]. Qed.

Lemma toLowerCase_app_inv (s x y : string) :
  Js.toLowerCase s = x ^^ y ->
  exists a b, s = a ^^ b /\ Js.toLowerCase a = x /\ Js.toLowerCase b = y.
Proof.
  revert s. induction x as [|c x IH]; intros s H; simpl in H.
  - now exists EmptyString, s.
  - destruct s as [|d s]; simpl in H; [discriminate|].
    inversion H as [[Hc Hs]]. destruct (IH s Hs) as [a [b [-> [Ha Hb]]]].
    exists (String d a), b. simpl. now rewrite Ha, Hb.
Qed.

(** Every code unit, for proofs by enumeration. *)
Lemma ascii_enumerated (c : ascii) :
  In c (map ascii_of_nat (seq 0 256)).
Proof.
  rewrite <- (ascii_nat_embedding c). apply in_map, in_seq.
  split; [apply Nat.le_0_l | apply nat_ascii_bounded].
Qed.

(** Lower-casing identifies exactly the code units that are the same
    letter. *)
Lemma lower_unit_same_letter (c d : ascii) :
  Ascii.eqb (Js.lower_unit c) (Js.lower_unit d) = Spec.same_letter c d.
Proof.
  assert (Hall : forallb (fun c =>
                   forallb (fun d =>
                     Bool.eqb (Ascii.eqb (Js.lower_unit c) (Js.lower_unit d))
                              (Spec.same_letter c d))
                     (map ascii_of_nat (seq 0 256)))
                   (map ascii_of_nat (seq 0 256)) = true)
    by (vm_compute; reflexivity).
  rewrite forallb_forall in Hall.
  pose proof (Hall c (ascii_enumerated c)) as Hc.
  rewrite forallb_forall in Hc.
  now apply Bool.eqb_prop, (Hc d (ascii_enumerated d)).
Qed.

Lemma toLowerCase_eq_iff (a b : string) :
  Js.toLowerCase a = Js.toLowerCase b <-> Spec.eq_ignore_case a b.
Proof.
  revert b. induction a as [|c a IH]; intros [|d b];
    cbn [Js.toLowerCase Spec.eq_ignore_case];
    try (split; [discriminate | intros []]).
  - tauto.
  - rewrite <- IH, <- lower_unit_same_letter, Ascii.eqb_eq. split.
    + intros H. now injection H.
    + intros [-> ->]. reflexivity.
Qed.

(** [includes] after [toLowerCase] is containment up to case, for a
    pattern in lower case. *)
Lemma includes_lower_spec (s p : string) :
  Js.toLowerCase p = p ->
  Js.includes (Js.toLowerCase s) p = true <-> Spec.contains_ignore_case s p.
Proof.
  intros Hp. rewrite includes_spec. unfold Spec.contains_ignore_case. split.
  - intros [pre [post H]].
    destruct (toLowerCase_app_inv _ _ _ H) as [a [r [-> [_ Hr]]]].
    destruct (toLowerCase_app_inv _ _ _ Hr) as [m [b [-> [Hm _]]]].
    exists a, m, b. split; [reflexivity|].
    apply toLowerCase_eq_iff. now rewrite Hp.
  - intros [pre [mid [post [-> Hm]]]].
    apply toLowerCase_eq_iff in Hm. rewrite Hp in Hm.
    exists (Js.toLowerCase pre), (Js.toLowerCase post).
    now rewrite !toLowerCase_app, Hm.
Qed.

Lemma endsWith_lower_spec (s p : string) :
  Js.toLowerCase p = p ->
  Js.endsWith (Js.toLowerCase s) p = true <-> Spec.ends_ignore_case s p.
Proof.
  intros Hp. rewrite endsWith_spec. unfold Spec.ends_ignore_case. split.
  - intros [pre H].
    destruct (toLowerCase_app_inv _ _ _ H) as [a [m [-> [_ Hm]]]].
    exists a, m. split; [reflexivity|].
    apply toLowerCase_eq_iff. now rewrite Hp.
  - intros [pre [mid [-> Hm]]].
    apply toLowerCase_eq_iff in Hm. rewrite Hp in Hm.
    exists (Js.toLowerCase pre). now rewrite toLowerCase_app, Hm.
Qed.

Lemma endsWith_empty_false (p : string) :
  p <> EmptyString -> Js.endsWith EmptyString p = false.
Proof.
  intros Hp. destruct p; [now elim Hp | reflexivity].
Qed.

(** Lower-casing neither makes nor unmakes a question mark. *)
Lemma lower_unit_question (c : ascii) :
  Ascii.eqb (Js.lower_unit c) "?" = Ascii.eqb c "?".
Proof.
  destruct c as [[|] [|] [|] [|] [|] [|] [|] [|]]; reflexivity.
Qed.

Lemma split_head_lower (s : string) :
  Js.split_head "?" (Js.toLowerCase s)
  = Js.toLowerCase (Js.split_head "?" s).
Proof.
  induction s as [|c s IH]; [reflexivity|].
  cbn [Js.toLowerCase Js.split_head]. rewrite lower_unit_question.
  destruct (Ascii.eqb c "?"); [reflexivity|].
  cbn [Js.toLowerCase]. now rewrite IH.
Qed.

Lemma no_question_empty : Spec.no_question EmptyString.
Proof. intros [|c a] b; discriminate. Qed.

Lemma no_question_cons (c : ascii) (s : string) :
  c <> "?"%char -> Spec.no_question s -> Spec.no_question (String c s).
Proof.
  intros Hc Hs [|d a] b H; simpl in H; injection H as H1 H2.
  - now apply Hc.
  - now apply (Hs a b).
Qed.

Lemma no_question_tail (c : ascii) (s : string) :
  Spec.no_question (String c s) -> c <> "?"%char /\ Spec.no_question s.
Proof.
  intros H. split.
  - intros ->. now apply (H EmptyString s).
  - intros a b ->. now apply (H (String c a) b).
Qed.

Lemma split_head_spec (u : string) :
  Spec.query_stripped u (Js.split_head "?" u).
Proof.
  unfold Spec.query_stripped.
  induction u as [|c u IH]; cbn [Js.split_head].
  - left. split; [reflexivity | apply no_question_empty].
  - destruct (Ascii.eqb_spec c "?") as [->|Hc].
    + right. exists u. split; [reflexivity | apply no_question_empty].
    + destruct IH as [[Hu Hn]|[q [Hu Hn]]].
      * left. split; [now rewrite <- Hu | now apply no_question_cons].
      * right. exists q. split.
        -- simpl. now rewrite <- Hu.
        -- now apply no_question_cons.
Qed.

Lemma split_head_no_question (s : string) :
  Spec.no_question s ->
  Js.split_head "?" s = s
  /\ forall q, Js.split_head "?" (s ^^ String "?" q) = s.
Proof.
  induction s as [|c s IH]; intros Hn.
  - split; [reflexivity|]. intros q. reflexivity.
  - apply no_question_tail in Hn as [Hc Hn].
    destruct (IH Hn) as [H1 H2]. cbn [Js.split_head String.append].
    destruct (Ascii.eqb_spec c "?") as [E|_]; [now elim Hc|].
    split; [now rewrite H1 | intros q; now rewrite H2].
Qed.

Lemma query_stripped_unique (u s : string) :
  Spec.query_stripped u s -> s = Js.split_head "?" u.
Proof.
  intros [[-> Hn]|[q [-> Hn]]].
  - symmetry. now apply split_head_no_question.
  - symmetry. now apply split_head_no_question.
Qed.

Lemma looks_like_json_spec (u : string) :
  looks_like_json u = true
  <-> exists stripped, Spec.query_stripped u stripped
                       /\ Spec.ends_ignore_case stripped ".json".
Proof.
  unfold looks_like_json. rewrite split_head_lower.
  rewrite (endsWith_lower_spec _ ".json" eq_refl). split.
  - intros H. exists (Js.split_head "?" u).
    split; [apply split_head_spec | exact H].
  - intros [s [Hs He]]. now rewrite <- (query_stripped_unique u s Hs).
Qed.

End StringFacts.

(* ================================================================= *)
(** ** Lists *)

Lemma firstn_incl {A} (k : nat) (l : list A) (x : A) :
  In x (firstn k l) -> In x l.
Proof.
  revert l. induction k as [|k IH]; intros [|y l] H; try now destruct H.
  destruct H as [->|H]; [now left | right; now apply IH].
Qed.

Lemma existsb_eqb_In (x : string) (l : list string) :
  existsb (String.eqb x) l = true <-> In x l.
Proof.
  rewrite existsb_exists. split.
  - intros [y [Hy E]]. apply String.eqb_eq in E. now subst y.
  - intros H. exists x. split; [exact H | apply String.eqb_refl].
Qed.

Lemma Set_add_spec (links : list string) (x : string) :
  Set_add links x
  = if in_dec string_dec x links then links else links ++ [x].
Proof.
  unfold Set_add. destruct (in_dec string_dec x links) as [Hin|Hout].
  - apply existsb_eqb_In in Hin. now rewrite Hin.
  - destruct (existsb (String.eqb x) links) eqn:E; [|reflexivity].
    apply existsb_eqb_In in E. now elim Hout.
Qed.

Lemma first_occurrences_ext (l seen seen' : list string) :
  (forall z, In z seen <-> In z seen') ->
  Spec.first_occurrences seen l = Spec.first_occurrences seen' l.
Proof.
  revert seen seen'. induction l as [|x l IH]; intros seen seen' H;
    [reflexivity|].
  cbn [Spec.first_occurrences].
  destruct (in_dec string_dec x seen) as [Hin|Hout],
           (in_dec string_dec x seen') as [Hin'|Hout'].
  - now apply IH.
  - elim Hout'. now apply H.
  - elim Hout. now apply H.
  - f_equal. apply IH. intros z. cbn [In]. now rewrite H.
Qed.

Lemma fold_Set_add (l acc : list string) :
  fold_left Set_add l acc = acc ++ Spec.first_occurrences acc l.
Proof.
  revert acc. induction l as [|x l IH]; intros acc.
  - cbn. now rewrite app_nil_r.
  - cbn [fold_left Spec.first_occurrences]. rewrite Set_add_spec.
    destruct (in_dec string_dec x acc) as [Hin|Hout]; [apply IH|].
    rewrite IH, <- app_assoc. cbn [app]. do 2 f_equal.
    apply first_occurrences_ext. intros z. rewrite in_app_iff. cbn [In].
    tauto.
Qed.

Lemma add_hrefs_fold (hrefs : list (option string)) (acc : list string) :
  add_hrefs acc hrefs = fold_left Set_add (Spec.present hrefs) acc.
Proof.
  unfold add_hrefs, Spec.present. revert acc.
  induction hrefs as [|[[|c s]|] hrefs IH]; intros acc;
    cbn [fold_left flat_map Js.truthy_str Js.nonempty app];
    [reflexivity | apply IH ..].
Qed.

Lemma first_occurrences_In (l seen : list string) (x : string) :
  In x (Spec.first_occurrences seen l) <-> In x l /\ ~ In x seen.
Proof.
  revert seen. induction l as [|y l IH]; intros seen.
  - cbn. tauto.
  - cbn [Spec.first_occurrences].
    destruct (in_dec string_dec y seen) as [Hin|Hout].
    + rewrite IH. cbn [In]. split; [tauto|].
      intros [[->|H] Hn]; [now elim Hn | tauto].
    + cbn [In]. rewrite IH. cbn [In].
      destruct (string_dec y x) as [->|Hne]; [tauto|]. tauto.
Qed.

Lemma first_occurrences_NoDup (l seen : list string) :
  NoDup (Spec.first_occurrences seen l).
Proof.
  revert seen. induction l as [|y l IH]; intros seen; [constructor|].
  cbn [Spec.first_occurrences].
  destruct (in_dec string_dec y seen) as [Hin|Hout]; [apply IH|].
  constructor; [|apply IH]. rewrite first_occurrences_In. cbn [In]. tauto.
Qed.

(** Keeping first occurrences keeps the order of first occurrences. *)
Lemma first_occurrences_order (l seen : list string) (x y : string) :
  In x l -> In y l -> ~ In x seen -> ~ In y seen ->
  (Spec.first_index x (Spec.first_occurrences seen l)
   < Spec.first_index y (Spec.first_occurrences seen l)
   <-> Spec.first_index x l < Spec.first_index y l)%nat.
Proof.
  revert seen. induction l as [|z l IH]; intros seen Hx Hy Hxs Hys;
    [now destruct Hx|].
  cbn [Spec.first_occurrences].
  destruct (in_dec string_dec z seen) as [Hin|Hout].
  - assert (Hxz : x <> z) by (intros ->; now elim Hxs).
    assert (Hyz : y <> z) by (intros ->; now elim Hys).
    cbn [Spec.first_index].
    destruct (string_dec x z) as [E|_]; [now elim Hxz|].
    destruct (string_dec y z) as [E|_]; [now elim Hyz|].
    rewrite <- Nat.succ_lt_mono. apply IH; try assumption.
    + destruct Hx as [E|H]; [now elim Hxz | exact H].
    + destruct Hy as [E|H]; [now elim Hyz | exact H].
  - cbn [Spec.first_index].
    destruct (string_dec x z) as [Exz|Hxz], (string_dec y z) as [Eyz|Hyz];
      try tauto.
    + split; intros _; apply Nat.lt_0_succ.
    + split; intros H; now apply Nat.nlt_0_r in H.
    + rewrite <- !Nat.succ_lt_mono. apply IH.
      * destruct Hx as [E|H]; [now elim Hxz | exact H].
      * destruct Hy as [E|H]; [now elim Hyz | exact H].
      * cbn [In]. intros [E|H]; [now elim Hxz | now elim Hxs].
      * cbn [In]. intros [E|H]; [now elim Hyz | now elim Hys].
Qed.

(* ================================================================= *)
(** ** Runs of the service *)

Section ServiceFacts.

Context {P : Platform}.

Lemma requests_app (c : axios_config) (es es' : trace) :
  requests c (es ++ es') = requests c es ++ requests c es'.
Proof.
  induction es as [|[l m|c' u|p|p] es IH]; simpl; try assumption.
  - reflexivity.
  - destruct c', c; simpl; now rewrite ?IH.
Qed.

Lemma all_requests_app (es es' : trace) :
  all_requests (es ++ es') = all_requests es ++ all_requests es'.
Proof.
  induction es as [|[l m|c' u|p|p] es IH]; simpl; try assumption.
  - reflexivity.
  - now rewrite IH.
Qed.

Lemma attachments_loop_run (atts : list Attachment) (h : trace) :
  attachments_loop atts h
  = (Ok (Spec.first_parsable_value atts), Spec.parse_warnings atts).
Proof.
  revert h. induction atts as [|a rest IH]; intros h; [reflexivity|].
  unfold Spec.first_parsable_value in *.
  cbn [attachments_loop find Spec.parse_warnings].
  unfold Spec.parsable, Spec.parse_attachment in *.
  destruct (isJsonAttachment a); cbn [andb]; [|apply IH].
  destruct (JSON_parse (Buffer_toString (content a))) as [v|e] eqn:E;
    cbn iota.
  - now rewrite E.
  - unfold bind, log, emit. now rewrite IH.
Qed.

Lemma first_parsable_value_skip (pre rest : list Attachment) :
  (forall b, In b pre -> isJsonAttachment b = false) ->
  Spec.first_parsable_value (pre ++ rest) = Spec.first_parsable_value rest.
Proof.
  intros Hpre. unfold Spec.first_parsable_value.
  induction pre as [|b pre IH]; [reflexivity|].
  cbn [app find]. rewrite (Hpre b (or_introl eq_refl)). cbn [andb].
  apply IH. intros c Hc. apply Hpre. now right.
Qed.

Lemma first_parsable_value_cons (a : Attachment) (rest : list Attachment) :
  isJsonAttachment a = true ->
  Spec.first_parsable_value (a :: rest)
  = match Spec.parse_attachment a with
    | Ok v => v
    | Throw _ => Spec.first_parsable_value rest
    end.
Proof.
  intros Ha. unfold Spec.first_parsable_value, Spec.parsable.
  cbn [find]. rewrite Ha. cbn [andb].
  destruct (Spec.parse_attachment a) eqn:E; [now rewrite E | reflexivity].
Qed.

Lemma extractJsonFromAttachments_run (parsed : ParsedMail) (h : trace) :
  extractJsonFromAttachments parsed h
  = (Ok (Spec.first_parsable_value (attachments parsed)),
     Spec.parse_warnings (attachments parsed)).
Proof.
  unfold extractJsonFromAttachments.
  destruct (attachments parsed) as [|a rest] eqn:E; [reflexivity|].
  cbn [List.length Nat.eqb]. apply attachments_loop_run.
Qed.

Lemma parse_warnings_no_request (atts : list Attachment) :
  all_requests (Spec.parse_warnings atts) = [].
Proof.
  induction atts as [|a rest IH]; [reflexivity|].
  cbn [Spec.parse_warnings].
  destruct (isJsonAttachment a); [|assumption].
  destruct (Spec.parse_attachment a); [reflexivity | assumption].
Qed.

Lemma page_accepts_valid (r : response) :
  page_accepts r = true -> validateStatus Timeout5s (status r) = true.
Proof.
  unfold page_accepts, validateStatus. intros H.
  apply andb_true_iff in H as [H _]. apply Z.eqb_eq in H. now rewrite H.
Qed.

Lemma tryIndirectLink_run (u : string) (h : trace) :
  tryIndirectLink u h
  = (Ok (Run.page_answer h u),
     [Run.checking_indirect u; HttpGet Timeout5s u]).
Proof.
  unfold tryIndirectLink, try_catch, bind, log, emit, axios_get, ret,
    Run.page_answer, Run.checking_indirect.
  destruct (network _ u) as [r|e]; [|reflexivity].
  destruct (page_accepts r) eqn:Ha.
  - rewrite (page_accepts_valid r Ha). cbn iota. now rewrite Ha.
  - destruct (validateStatus Timeout5s (status r)); cbn iota;
      now rewrite ?Ha.
Qed.

Lemma tryLink_run (u : string) (h : trace) :
  tryLink u h = (Ok (Run.link_completion h u), Run.link_events h u).
Proof.
  unfold tryLink, try_catch, bind, log, emit, axios_get, ret,
    Run.link_completion, Run.link_events, Run.checking, Run.failed.
  cbn [validateStatus].
  destruct (network _ u) as [r|e]; [|reflexivity].
  destruct (negb (status r =? 200)); [reflexivity|].
  destruct (direct_json r); [reflexivity|].
  destruct (Js.includes _ "text/html"); [|reflexivity].
  now destruct (as_string (data r)).
Qed.

Lemma link_events_requests (h : trace) (u : string) :
  requests AnyStatus5s (Run.link_events h u) = [u]
  /\ all_requests (Run.link_events h u) = [u].
Proof.
  unfold Run.link_events. now destruct (network _ u).
Qed.

(** The chase never throws; it issues GETs under its own configuration
    only, to candidates of the page, in the order of the page. *)
Lemma page_loop_total (baseUrl : string) (links : list string) (h : trace) :
  exists v es,
    page_loop baseUrl links h = (Ok v, es)
    /\ requests AnyStatus5s es = []
    /\ exists k, all_requests es
                 = firstn k (Spec.page_candidates baseUrl links).
Proof.
  revert h. induction links as [|link rest IH]; intros h.
  - exists JNull, []. repeat split. now exists O.
  - cbn [page_loop Spec.page_candidates flat_map].
    fold (Spec.page_candidates baseUrl rest).
    destruct (URL_resolve link baseUrl) as [u|e]; [|apply IH].
    destruct (looks_like_json u); [|apply IH].
    unfold bind. rewrite tryIndirectLink_run.
    destruct (Run.page_answer h u) as [v|].
    + exists v, [Run.checking_indirect u; HttpGet Timeout5s u].
      repeat split. now exists 1%nat.
    + destruct (IH (h ++ [Run.checking_indirect u; HttpGet Timeout5s u]))
        as [v [es [-> [Hr [k Hk]]]]].
      exists v, ([Run.checking_indirect u; HttpGet Timeout5s u] ++ es).
      repeat split.
      * now rewrite requests_app, Hr.
      * exists (S k). rewrite all_requests_app, Hk. reflexivity.
Qed.

Lemma extractJsonFromHtmlPage_total (html baseUrl : string) (h : trace) :
  exists v es,
    extractJsonFromHtmlPage html baseUrl h = (Ok v, es)
    /\ requests AnyStatus5s es = [].
Proof.
  unfold extractJsonFromHtmlPage.
  destruct (page_loop_total baseUrl (add_hrefs [] (anchor_hrefs html)) h)
    as [v [es [H [Hr _]]]].
  now exists v, es.
Qed.

(** The resolver never throws, and issues exactly one GET under its
    configuration: to the link it is given. *)
Lemma checkLinkForJson_total (u : string) (h : trace) :
  exists v es,
    checkLinkForJson u h = (Ok v, es)
    /\ requests AnyStatus5s es = [u]
    /\ exists es', es = Run.link_events h u ++ es'.
Proof.
  unfold checkLinkForJson, bind. rewrite tryLink_run.
  destruct (link_events_requests h u) as [Hreq _].
  destruct (Run.link_completion h u) as [v|page|].
  - exists v, (Run.link_events h u ++ []). repeat split.
    + now rewrite app_nil_r.
    + now exists [].
  - destruct (extractJsonFromHtmlPage_total page u (h ++ Run.link_events h u))
      as [v [es [-> Hr]]].
    exists v, (Run.link_events h u ++ es). repeat split.
    + now rewrite requests_app, Hreq, Hr.
    + now exists es.
  - exists JNull, (Run.link_events h u ++ []). repeat split.
    + now rewrite app_nil_r.
    + now exists [].
Qed.

(** The loop over the harvested links never throws, and invokes the
    resolver on links that are not discarded, in the order of the set. *)
Lemma links_loop_total (links : list string) (h : trace) :
  exists v es,
    links_loop links h = (Ok v, es)
    /\ exists k,
         requests AnyStatus5s es
         = firstn k (filter (fun l => negb (Spec.discarded l)) links).
Proof.
  revert h. induction links as [|link rest IH]; intros h.
  - exists JNull, []. split; [reflexivity | now exists O].
  - cbn [links_loop filter]. fold (Spec.discarded link).
    destruct (Spec.discarded link); cbn [negb]; [apply IH|].
    unfold bind.
    destruct (checkLinkForJson_total link h) as [v [es [-> [Hr _]]]].
    destruct (truthy v).
    + exists v, (es ++ []). split; [reflexivity|].
      exists 1%nat. now rewrite app_nil_r, Hr.
    + destruct (IH (h ++ es)) as [w [es' [-> [k Hk]]]].
      exists w, (es ++ es'). split; [reflexivity|].
      exists (S k). now rewrite requests_app, Hr, Hk.
Qed.

(** One turn of each loop. *)
Lemma links_loop_discard (link : string) (rest : list string) (h : trace) :
  Spec.discarded link = true ->
  links_loop (link :: rest) h = links_loop rest h.
Proof.
  intros H. cbn [links_loop]. fold (Spec.discarded link). now rewrite H.
Qed.

Lemma links_loop_step (link : string) (rest : list string) (h : trace)
    (v : jsval) (es : trace) :
  Spec.discarded link = false ->
  checkLinkForJson link h = (Ok v, es) ->
  links_loop (link :: rest) h
  = if truthy v then (Ok v, es)
    else let (r, es') := links_loop rest (h ++ es) in (r, es ++ es').
Proof.
  intros Hd Hc. cbn [links_loop]. fold (Spec.discarded link). rewrite Hd.
  cbn [orb]. unfold bind. rewrite Hc.
  destruct (truthy v); [|reflexivity].
  unfold ret. now rewrite app_nil_r.
Qed.

Lemma checkLinkForJson_run (u : string) (h : trace) :
  checkLinkForJson u h
  = match Run.link_completion h u with
    | Return v => (Ok v, Run.link_events h u)
    | ReturnChase page =>
        let (r, es) := extractJsonFromHtmlPage page u
                         (h ++ Run.link_events h u) in
        (r, Run.link_events h u ++ es)
    | FallThrough => (Ok JNull, Run.link_events h u)
    end.
Proof.
  unfold checkLinkForJson, bind. rewrite tryLink_run.
  destruct (Run.link_completion h u); unfold ret;
    now rewrite ?app_nil_r.
Qed.

Lemma page_loop_unresolved (baseUrl link : string) (rest : list string)
    (h : trace) (e : exn) :
  URL_resolve link baseUrl = Throw e ->
  page_loop baseUrl (link :: rest) h = page_loop baseUrl rest h.
Proof. intros H. cbn [page_loop]. now rewrite H. Qed.

Lemma page_loop_not_json (baseUrl link u : string) (rest : list string)
    (h : trace) :
  URL_resolve link baseUrl = Ok u ->
  looks_like_json u = false ->
  page_loop baseUrl (link :: rest) h = page_loop baseUrl rest h.
Proof. intros H Hj. cbn [page_loop]. now rewrite H, Hj. Qed.

Lemma page_loop_step (baseUrl link u : string) (rest : list string)
    (h : trace) :
  URL_resolve link baseUrl = Ok u ->
  looks_like_json u = true ->
  page_loop baseUrl (link :: rest) h
  = let tried := [Run.checking_indirect u; HttpGet Timeout5s u] in
    match Run.page_answer h u with
    | Some v => (Ok v, tried)
    | None => let (r, es) := page_loop baseUrl rest (h ++ tried) in
              (r, tried ++ es)
    end.
Proof.
  intros H Hj. cbn [page_loop]. rewrite H, Hj. unfold bind.
  rewrite tryIndirectLink_run.
  destruct (Run.page_answer h u); [|reflexivity].
  unfold ret. now rewrite app_nil_r.
Qed.

Lemma harvestLinks_first_occurrences (html text : option string) :
  harvestLinks html text
  = Spec.first_occurrences [] (Spec.inserted html text).
Proof.
  unfold harvestLinks, Spec.inserted.
  now rewrite add_hrefs_fold, <- fold_left_app, fold_Set_add.
Qed.

(** A value other than [null] comes from one candidate. *)
Lemma first_parsable_value_origin (atts : list Attachment) :
  Spec.first_parsable_value atts <> JNull ->
  Spec.content_of_one_attachment atts (Spec.first_parsable_value atts).
Proof.
  unfold Spec.first_parsable_value, Spec.content_of_one_attachment.
  destruct (find _ atts) as [a|] eqn:Hfind; [|intros H; now elim H].
  apply find_some in Hfind as [Hin Hc].
  apply andb_true_iff in Hc as [Hc _].
  destruct (Spec.parse_attachment a) as [v|e] eqn:Hv;
    [|intros H; now elim H].
  intros _. now exists a.
Qed.

Lemma page_loop_origin (baseUrl : string) (links : list string) (h : trace)
    (v : jsval) :
  result_of (page_loop baseUrl links h) = Ok v ->
  v <> JNull ->
  Spec.body_of_one_answer v.
Proof.
  revert h. induction links as [|link rest IH]; intros h Hrun Hv.
  - injection Hrun as <-. now elim Hv.
  - destruct (URL_resolve link baseUrl) as [u|e] eqn:Hu.
    + destruct (looks_like_json u) eqn:Hj.
      * rewrite (page_loop_step baseUrl link u rest h Hu Hj) in Hrun.
        cbv zeta in Hrun. unfold Run.page_answer in Hrun.
        destruct (network _ u) as [r|e] eqn:Hnet.
        -- destruct (page_accepts r).
           ++ injection Hrun as <-. eexists. exists u, r.
              split; [exact Hnet | reflexivity].
           ++ destruct (page_loop baseUrl rest _) as [w es] eqn:Hrest.
              apply (IH (h ++ [Run.checking_indirect u;
                               HttpGet Timeout5s u])); [|exact Hv].
              now rewrite Hrest.
        -- destruct (page_loop baseUrl rest _) as [w es] eqn:Hrest.
           apply (IH (h ++ [Run.checking_indirect u;
                            HttpGet Timeout5s u])); [|exact Hv].
           now rewrite Hrest.
      * rewrite (page_loop_not_json baseUrl link u rest h Hu Hj) in Hrun.
        now apply (IH h).
    + rewrite (page_loop_unresolved baseUrl link rest h e Hu) in Hrun.
      now apply (IH h).
Qed.

Lemma checkLinkForJson_origin (u : string) (h : trace) (v : jsval) :
  result_of (checkLinkForJson u h) = Ok v ->
  v <> JNull ->
  Spec.body_of_one_answer v.
Proof.
  rewrite checkLinkForJson_run. intros Hrun Hv.
  destruct (Run.link_completion h u) as [w|page|] eqn:Hc.
  - injection Hrun as <-. unfold Run.link_completion in Hc.
    destruct (network _ u) as [r|e] eqn:Hnet; [|discriminate Hc].
    destruct (negb (status r =? 200)).
    + injection Hc as <-. now elim Hv.
    + destruct (direct_json r).
      * injection Hc as <-. eexists. exists u, r.
        split; [exact Hnet | reflexivity].
      * destruct (Js.includes _ "text/html"); [|discriminate Hc].
        destruct (as_string (data r)); discriminate Hc.
  - unfold extractJsonFromHtmlPage in Hrun.
    destruct (page_loop u _ _) as [w es] eqn:Hpage.
    apply (page_loop_origin u (add_hrefs [] (anchor_hrefs page))
             (h ++ Run.link_events h u)); [|exact Hv].
    now rewrite Hpage.
  - injection Hrun as <-. now elim Hv.
Qed.

Lemma truthy_not_null (v : jsval) : truthy v = true -> v <> JNull.
Proof. intros H ->. discriminate H. Qed.

Lemma links_loop_origin (links : list string) (h : trace) (v : jsval) :
  result_of (links_loop links h) = Ok v ->
  v <> JNull ->
  Spec.body_of_one_answer v.
Proof.
  revert h. induction links as [|link rest IH]; intros h Hrun Hv.
  - injection Hrun as <-. now elim Hv.
  - destruct (Spec.discarded link) eqn:Hd.
    + rewrite (links_loop_discard link rest h Hd) in Hrun. now apply (IH h).
    + destruct (checkLinkForJson_total link h) as [w [es [Hc _]]].
      rewrite (links_loop_step link rest h w es Hd Hc) in Hrun.
      destruct (truthy w).
      * injection Hrun as <-.
        apply (checkLinkForJson_origin link h); [now rewrite Hc | exact Hv].
      * destruct (links_loop rest (h ++ es)) as [x es'] eqn:Hrest.
        apply (IH (h ++ es)); [now rewrite Hrest | exact Hv].
Qed.

Lemma extractJsonFromLinks_total (html text : option string) (h : trace) :
  exists v es, extractJsonFromLinks html text h = (Ok v, es).
Proof.
  unfold extractJsonFromLinks.
  destruct (links_loop_total (harvestLinks html text) h) as [v [es [H _]]].
  now exists v, es.
Qed.

Lemma extractionStrategy_attachment (parsed : ParsedMail) (h : trace) :
  truthy (Spec.first_parsable_value (attachments parsed)) = true ->
  extractionStrategy parsed h
  = (Ok (Spec.first_parsable_value (attachments parsed)),
     Run.checking_attachments :: Spec.parse_warnings (attachments parsed)
       ++ [Run.found_in_attachments]).
Proof.
  intros Ht. unfold extractionStrategy, bind, log, emit.
  rewrite extractJsonFromAttachments_run, Ht. reflexivity.
Qed.

Lemma extractionStrategy_links (parsed : ParsedMail) (h : trace) :
  truthy (Spec.first_parsable_value (attachments parsed)) = false ->
  let before := Run.checking_attachments
                  :: Spec.parse_warnings (attachments parsed)
                  ++ [Run.checking_links] in
  exists l es,
    extractJsonFromLinks (html parsed) (text parsed) (h ++ before)
    = (Ok l, es)
    /\ extractionStrategy parsed h
       = if truthy l then (Ok l, before ++ es ++ [Run.found_via_links])
         else (Throw Run.no_json_found, before ++ es).
Proof.
  intros Ht before.
  destruct (extractJsonFromLinks_total (html parsed) (text parsed)
              (h ++ before)) as [l [es Hl]].
  exists l, es. split; [exact Hl|].
  unfold extractionStrategy, bind, log, emit.
  rewrite extractJsonFromAttachments_run, Ht.
  replace (((h ++ [Logged Info "Checking attachments for JSON..."])
              ++ Spec.parse_warnings (attachments parsed))
             ++ [Logged Info "Checking links for JSON..."])
    with (h ++ before)
    by (unfold before, Run.checking_attachments, Run.checking_links;
        now rewrite <- !app_assoc).
  rewrite Hl. unfold before, Run.checking_attachments, Run.checking_links,
    Run.found_via_links, Run.no_json_found.
  destruct (truthy l); unfold ret, throw; cbn [app];
    now rewrite ?app_nil_r, <- ?app_assoc.
Qed.

Lemma processEmail_decoded (source : string) (h : trace)
    (bytes : string) (parsed : ParsedMail) (es0 : trace) :
  getEmailContent source (h ++ [Run.processing source]) = (Ok bytes, es0) ->
  simpleParser bytes = Ok parsed ->
  processEmail source h
  = (let before := Run.processing source :: es0 in
     let (r, es) := extractionStrategy parsed (h ++ before) in
     (r, before ++ es)).
Proof.
  intros Hget Hparse.
  unfold processEmail, bind, log, emit, try_catch, lift.
  fold (Run.processing source). rewrite Hget, Hparse.
  replace (((h ++ [Run.processing source]) ++ es0) ++ [])
    with (h ++ Run.processing source :: es0)
    by (now rewrite app_nil_r, <- app_assoc).
  cbv zeta.
  now destruct (extractionStrategy parsed (h ++ Run.processing source :: es0))
    as [r es].
Qed.

Lemma first_parsable_value_of (atts : list Attachment) (a : Attachment)
    (v : jsval) :
  Spec.first_parsable atts = Some a ->
  Spec.parse_attachment a = Ok v ->
  Spec.first_parsable_value atts = v.
Proof.
  unfold Spec.first_parsable, Spec.first_parsable_value.
  intros -> Hv. now rewrite Hv.
Qed.

(** What [processEmail] does once the message is decoded, by the
    truthiness of the attachment strategy's answer. *)
Lemma processEmail_by_attachment (source : string) (h : trace)
    (bytes : string) (parsed : ParsedMail) (es0 : trace) :
  getEmailContent source (h ++ [Run.processing source]) = (Ok bytes, es0) ->
  simpleParser bytes = Ok parsed ->
  let a := Spec.first_parsable_value (attachments parsed) in
  let scanned := Run.processing source :: es0
                   ++ Run.checking_attachments
                   :: Spec.parse_warnings (attachments parsed) in
  (truthy a = true ->
   processEmail source h = (Ok a, scanned ++ [Run.found_in_attachments]))
  /\ (truthy a = false ->
      exists l es,
        extractJsonFromLinks (html parsed) (text parsed)
          (h ++ scanned ++ [Run.checking_links]) = (Ok l, es)
        /\ processEmail source h
           = if truthy l
             then (Ok l, scanned ++ Run.checking_links :: es
                           ++ [Run.found_via_links])
             else (Throw Run.no_json_found,
                   scanned ++ Run.checking_links :: es)).
Proof.
  intros Hget Hparse a scanned.
  rewrite (processEmail_decoded source h bytes parsed es0 Hget Hparse).
  cbv zeta. split; intros Ht.
  - rewrite (extractionStrategy_attachment parsed _ Ht).
    unfold scanned, a. cbn [app]. now rewrite <- app_assoc.
  - destruct (extractionStrategy_links parsed
                (h ++ Run.processing source :: es0) Ht)
      as [l [es [Hl ->]]].
    exists l, es. split.
    + rewrite <- Hl. f_equal. unfold scanned. cbn [app].
      now rewrite <- !app_assoc.
    + unfold scanned. destruct (truthy l); cbn [app];
        now rewrite <- !app_assoc.
Qed.

End ServiceFacts.

(* ================================================================= *)
(** ** Classification of attachments *)

(** Claim C3.  An attachment is classified as a JSON candidate exactly when
    its content-type contains [application/json] up to case, or it has a
    filename that ends with [.json] up to case; either condition suffices,
    and an attachment without a filename is classified by its content-type
    alone. *)
Theorem isJsonAttachment_spec (a : Attachment) :
  (isJsonAttachment a = true <-> Spec.json_candidate a)
  /\ (Spec.contains_ignore_case (contentType a) "application/json" ->
      isJsonAttachment a = true)
  /\ (forall f, filename a = Some f -> Spec.ends_ignore_case f ".json" ->
      isJsonAttachment a = true)
  /\ (filename a = None ->
      (isJsonAttachment a = true
       <-> Spec.contains_ignore_case (contentType a) "application/json")).
Proof.
  assert (Hct : Js.includes (Js.toLowerCase (contentType a)) "application/json"
                = true
                <-> Spec.contains_ignore_case (contentType a) "application/json")
    by (apply includes_lower_spec; reflexivity).
  assert (Hfn : forall f, Js.endsWith (Js.toLowerCase f) ".json" = true
                          <-> Spec.ends_ignore_case f ".json")
    by (intros f; apply endsWith_lower_spec; reflexivity).
  assert (Hnone : Js.endsWith EmptyString ".json" = false) by reflexivity.
  assert (Hiff : isJsonAttachment a = true <-> Spec.json_candidate a).
  { unfold isJsonAttachment, Spec.json_candidate.
    rewrite orb_true_iff, Hct.
    destruct (filename a) as [[|c f]|]; cbn [Js.truthy_str Js.nonempty].
    - rewrite Hnone. split; [intros [H|H]; [now left | discriminate]|].
      intros [H|[f [Hf He]]]; [now left|].
      injection Hf as <-. apply Hfn in He. discriminate He.
    - rewrite Hfn. split.
      + intros [H|H]; [now left | right; now exists (String c f)].
      + intros [H|[g [Hg He]]]; [now left | right].
        now injection Hg as <-.
    - rewrite Hnone. split; [intros [H|H]; [now left | discriminate]|].
      intros [H|[f [Hf _]]]; [now left | discriminate]. }
  split; [exact Hiff|]. split; [|split].
  - intros H. apply Hiff. now left.
  - intros f Hf He. apply Hiff. right. now exists f.
  - intros Hf. rewrite Hiff. unfold Spec.json_candidate. rewrite Hf.
    split; [intros [H|[f [Hx _]]]; [assumption | discriminate] | now left].
Qed.

(** The up-to-case rule at work: an upper-case content-type without a
    filename, and an upper-case extension under a content-type that is not
    JSON. *)
Lemma isJsonAttachment_spec_witness :
  isJsonAttachment Fixture.list_json = true
  /\ isJsonAttachment Fixture.broken_json = true
  /\ (isJsonAttachment Fixture.list_json = true
      <-> Spec.contains_ignore_case (contentType Fixture.list_json)
            "application/json").
Proof.
  split; [|split].
  - apply (proj1 (proj2 (isJsonAttachment_spec Fixture.list_json))).
    exists EmptyString, "Application/JSON", "; charset=utf-8".
    split; [reflexivity | vm_compute; tauto].
  - apply (proj1 (proj2 (proj2 (isJsonAttachment_spec Fixture.broken_json)))
             "Report.JSON" eq_refl).
    exists "Report", ".JSON". split; [reflexivity | vm_compute; tauto].
  - apply (proj2 (proj2 (proj2 (isJsonAttachment_spec Fixture.list_json)))).
    reflexivity.
Defined.

(* ================================================================= *)
(** ** The attachment strategy *)

(** Claim C1, as the specification states it, fails: the first attachment
    classified as a JSON candidate does not parse, a later one does, and
    the scan goes on to the later one and returns its content instead of
    reporting no match. *)
Lemma no_fallthrough_counterexample :
  let parsed := {| attachments := [Fixture.broken_json; Fixture.list_json];
                   html := None; text := None |} in
  let run := @extractJsonFromAttachments Fixture.platform parsed [] in
  Spec.first_classified (attachments parsed) = Some Fixture.broken_json
  /\ @Spec.parse_attachment Fixture.platform Fixture.broken_json
     = Throw (JsError "Unexpected token")
  /\ result_of run = Ok (JArr [JNum 1; JNum 2; JNum 3])
  /\ result_of run <> Ok JNull.
Proof.
  cbv zeta. repeat split; try reflexivity. vm_compute. discriminate.
Qed.

(** Claim C1, amended.  The attachment strategy never throws and returns
    the parsed content of the first attachment, in document order, that is
    classified as a JSON candidate and whose content parses as JSON.  So
    when the first classified attachment parses, its content is the
    result; when it fails to parse, a warning is logged and the scan
    continues with the attachments after it.  The strategy returns [null],
    its "no match", exactly when no classified attachment parses or the
    first one that parses holds the JSON value [null]. *)
Theorem extractJsonFromAttachments_first_parsable {P : Platform}
    (parsed : ParsedMail) (h : trace) :
  let run := extractJsonFromAttachments parsed h in
  result_of run = Ok (Spec.first_parsable_value (attachments parsed))
  /\ events_of run = Spec.parse_warnings (attachments parsed)
  /\ (forall pre a post,
        attachments parsed = pre ++ a :: post ->
        (forall b, In b pre -> isJsonAttachment b = false) ->
        isJsonAttachment a = true ->
        (forall v, Spec.parse_attachment a = Ok v -> result_of run = Ok v)
        /\ (forall e, Spec.parse_attachment a = Throw e ->
            result_of run = Ok (Spec.first_parsable_value post)
            /\ exists msg es, events_of run = Logged Warn msg :: es))
  /\ (forall a v,
        Spec.first_parsable (attachments parsed) = Some a ->
        Spec.parse_attachment a = Ok v ->
        result_of run = Ok v)
  /\ (result_of run = Ok JNull
      <-> Spec.first_parsable (attachments parsed) = None
          \/ exists a, Spec.first_parsable (attachments parsed) = Some a
                       /\ Spec.parse_attachment a = Ok JNull).
Proof.
  cbv zeta. rewrite extractJsonFromAttachments_run.
  unfold result_of, events_of. cbn [fst snd].
  split; [reflexivity|]. split; [reflexivity|]. split; [|split].
  - intros pre a post Hatts Hpre Ha. rewrite Hatts.
    rewrite (first_parsable_value_skip pre (a :: post) Hpre).
    rewrite (first_parsable_value_cons a post Ha).
    split.
    + intros v Hv. now rewrite Hv.
    + intros e He. rewrite He. split; [reflexivity|].
      clear Hatts. induction pre as [|b pre IH].
      * cbn [app Spec.parse_warnings]. rewrite Ha, He. eauto.
      * cbn [app Spec.parse_warnings].
        rewrite (Hpre b (or_introl eq_refl)). apply IH.
        intros c Hc. apply Hpre. now right.
  - intros a v Ha Hv. now rewrite (first_parsable_value_of _ a v Ha Hv).
  - unfold Spec.first_parsable_value, Spec.first_parsable.
    destruct (find _ (attachments parsed)) as [a|] eqn:Hfind.
    + apply find_some in Hfind as [_ Hc].
      apply andb_true_iff in Hc as [_ Hp]. unfold Spec.parsable in Hp.
      destruct (Spec.parse_attachment a) as [v|e] eqn:Hpa;
        [|discriminate Hp].
      split.
      * intros Hv. injection Hv as ->. right. now exists a.
      * intros [Hnone|[b [Hb Hv]]]; [discriminate Hnone|].
        injection Hb as <-. rewrite Hpa in Hv. now injection Hv as ->.
    + split; [now left | reflexivity].
Qed.

Lemma extractJsonFromAttachments_first_parsable_witness :
  let parsed := {| attachments := [Fixture.picture; Fixture.broken_json;
                                   Fixture.list_json];
                   html := None; text := None |} in
  let nulled := {| attachments := [More.null_json; Fixture.list_json];
                   html := None; text := None |} in
  result_of (@extractJsonFromAttachments Fixture.platform parsed [])
  = Ok (JArr [JNum 1; JNum 2; JNum 3])
  (* an attachment that holds null ends the scan with null *)
  /\ result_of (@extractJsonFromAttachments Fixture.platform nulled [])
     = Ok JNull.
Proof.
  intros parsed nulled. split.
  - destruct (@extractJsonFromAttachments_first_parsable
                Fixture.platform parsed []) as [_ [_ [H _]]].
    destruct (H [Fixture.picture] Fixture.broken_json [Fixture.list_json]
                eq_refl) as [_ Hthrow].
    + intros b [<-|[]]. reflexivity.
    + reflexivity.
    + exact (proj1 (Hthrow (JsError "Unexpected token") eq_refl)).
  - destruct (@extractJsonFromAttachments_first_parsable
                Fixture.platform nulled []) as [_ [_ [_ [_ Hnull]]]].
    apply (proj2 Hnull). right. exists More.null_json.
    split; reflexivity.
Defined.

(* ================================================================= *)
(** ** The order of the strategies *)

(** Claim C2, as the specification states it, fails in two ways.
    - A strategy that produces a valid candidate does not always decide:
      the attachment strategy yields the valid JSON value 0, and the link
      strategy is evaluated all the same and decides the result.
    - The three strategies are not tried in one fixed order: the set holds
      a link to a page and a link that leads to JSON directly; the page of
      the first link is chased and decides the result, and the second
      link, on which the direct strategy succeeds, is never tried. *)
Lemma fixed_order_counterexample :
  let P := More.mailbox in
  let zero := @processEmail P "test/fixtures/zero-and-link.eml" [] in
  let page := @processEmail P "test/fixtures/page-then-direct.eml" [] in
  (@simpleParser P "zero-and-link.eml" = Ok More.zero_and_link
   /\ result_of (@extractJsonFromAttachments P More.zero_and_link [])
      = Ok (JNum 0)
   /\ result_of zero = Ok (JArr [JNum 1; JNum 2; JNum 3])
   /\ all_requests (events_of zero) = ["https://host/file.json"])
  /\ (@simpleParser P "page-then-direct.eml" = Ok More.page_then_direct
      /\ @harvestLinks P (html More.page_then_direct)
           (text More.page_then_direct)
         = ["https://host/page.html"; "https://host/file.json"]
      /\ result_of (@checkLinkForJson P "https://host/file.json" [])
         = Ok (JArr [JNum 1; JNum 2; JNum 3])
      /\ result_of page = Ok (JObj [("ok", JBool true)])
      /\ all_requests (events_of page)
         = ["https://host/page.html"; "https://host/assets/out.json"]).
Proof.
  cbv zeta. repeat split; vm_compute; reflexivity.
Qed.

(** Claim C2, amended.  A request whose message decodes returns one value
    or fails with "not found", and the value is that of a single
    candidate; a value counts as a success when it is truthy, as the code
    tests it.
    - The attachment strategy comes first: when its value is truthy, that
      value is the result and nothing follows but the log line; no link is
      harvested, no request is issued.
    - Otherwise (no match, or a falsy value) the loop over the harvested
      set decides: its truthy value is the result, or the request fails
      with "not found".
    - The links of the set are tried one at a time, in the order of the
      set.  The first link whose resolution yields a truthy value ends the
      loop: the run is the run of that link, whatever the later links are.
      After a link whose resolution yields a falsy value the loop goes on
      with the next link.
    - For each link the direct strategy comes first, then the chase of
      that link's page: an answer classified as direct JSON is returned
      after the one GET; an answer that is an HTML page is chased at once,
      before any later link is tried, and the first candidate of the page
      that is accepted is returned, whatever the later links of the page
      are.
    - Nothing is merged: the value of the attachment strategy is the
      parsed content of one attachment, the value of the link strategies
      the decoded body of one answer of the network. *)
Theorem processEmail_first_success_wins {P : Platform}
    (source : string) (h : trace) (bytes : string) (parsed : ParsedMail)
    (es0 : trace)
    (Hget : getEmailContent source (h ++ [Run.processing source])
            = (Ok bytes, es0))
    (Hparse : simpleParser bytes = Ok parsed) :
  let a := Spec.first_parsable_value (attachments parsed) in
  let scanned := Run.processing source :: es0
                   ++ Run.checking_attachments
                   :: Spec.parse_warnings (attachments parsed) in
  (truthy a = true ->
   processEmail source h = (Ok a, scanned ++ [Run.found_in_attachments])
   /\ all_requests (events_of (processEmail source h)) = all_requests es0)
  /\ (truthy a = false ->
      exists l es,
        links_loop (harvestLinks (html parsed) (text parsed))
          (h ++ scanned ++ [Run.checking_links]) = (Ok l, es)
        /\ processEmail source h
           = if truthy l
             then (Ok l, scanned ++ Run.checking_links :: es
                           ++ [Run.found_via_links])
             else (Throw Run.no_json_found,
                   scanned ++ Run.checking_links :: es))
  /\ (forall link rest h' v es,
        Spec.discarded link = false ->
        checkLinkForJson link h' = (Ok v, es) ->
        truthy v = true ->
        links_loop (link :: rest) h' = (Ok v, es))
  /\ (forall link rest h' v es,
        Spec.discarded link = false ->
        checkLinkForJson link h' = (Ok v, es) ->
        truthy v = false ->
        links_loop (link :: rest) h'
        = let (r, es') := links_loop rest (h' ++ es) in (r, es ++ es'))
  /\ (forall u h' r,
        network (h' ++ [Run.checking u]) u = Ok r ->
        status r = 200 ->
        direct_json r = true ->
        checkLinkForJson u h'
        = (Ok (data r), [Run.checking u; HttpGet AnyStatus5s u]))
  /\ (forall u h' r page link rest u' r',
        network (h' ++ [Run.checking u]) u = Ok r ->
        status r = 200 ->
        direct_json r = false ->
        Js.includes (header_or_empty (content_type r)) "text/html" = true ->
        data r = JStr page ->
        add_hrefs [] (anchor_hrefs page) = link :: rest ->
        URL_resolve link u = Ok u' ->
        looks_like_json u' = true ->
        network (h' ++ [Run.checking u; HttpGet AnyStatus5s u;
                        Run.checking_indirect u']) u' = Ok r' ->
        page_accepts r' = true ->
        checkLinkForJson u h'
        = (Ok (data r'),
           [Run.checking u; HttpGet AnyStatus5s u;
            Run.checking_indirect u'; HttpGet Timeout5s u']))
  /\ (forall baseUrl link rest h' u r,
        URL_resolve link baseUrl = Ok u ->
        looks_like_json u = true ->
        network (h' ++ [Run.checking_indirect u]) u = Ok r ->
        page_accepts r = true ->
        page_loop baseUrl (link :: rest) h'
        = (Ok (data r), [Run.checking_indirect u; HttpGet Timeout5s u]))
  /\ (truthy a = true ->
      Spec.content_of_one_attachment (attachments parsed) a)
  /\ (forall h' l,
        result_of (links_loop (harvestLinks (html parsed) (text parsed)) h')
        = Ok l ->
        truthy l = true ->
        Spec.body_of_one_answer l).
Proof.
  intros a scanned.
  destruct (processEmail_by_attachment source h bytes parsed es0 Hget Hparse)
    as [Hatt Hlinks].
  split; [|split; [exact Hlinks|]].
  - intros Ht. split; [exact (Hatt Ht)|].
    rewrite (Hatt Ht). unfold events_of, scanned, Run.processing,
      Run.checking_attachments, Run.found_in_attachments.
    cbn [snd app all_requests]. rewrite !all_requests_app.
    cbn [all_requests].
    now rewrite parse_warnings_no_request, !app_nil_r.
  - split; [|split; [|split; [|split; [|split; [|split]]]]].
    + intros link rest h' v es Hd Hc Ht.
      now rewrite (links_loop_step link rest h' v es Hd Hc), Ht.
    + intros link rest h' v es Hd Hc Ht.
      now rewrite (links_loop_step link rest h' v es Hd Hc), Ht.
    + intros u h' r Hnet Hs Hd. rewrite checkLinkForJson_run.
      unfold Run.link_completion, Run.link_events. rewrite Hnet, Hs, Hd.
      reflexivity.
    + intros u h' r page link rest u' r' Hnet Hs Hd Hct Hdata Hlinks'
        Hu Hj Hnet' Ha.
      rewrite checkLinkForJson_run.
      unfold Run.link_completion, Run.link_events.
      rewrite Hnet, Hs, Hd, Hct, Hdata. cbn [Z.eqb Pos.eqb negb as_string].
      unfold extractJsonFromHtmlPage. rewrite Hlinks'.
      rewrite (page_loop_step u link u' rest _ Hu Hj). cbv zeta.
      unfold Run.page_answer. rewrite <- app_assoc. cbn [app].
      now rewrite Hnet', Ha.
    + intros baseUrl link rest h' u r Hu Hj Hnet Ha.
      rewrite (page_loop_step baseUrl link u rest h' Hu Hj).
      unfold Run.page_answer. now rewrite Hnet, Ha.
    + intros Ht. apply first_parsable_value_origin.
      now apply truthy_not_null.
    + intros h' l Hl Ht.
      apply (links_loop_origin (harvestLinks (html parsed) (text parsed)) h');
        [exact Hl | now apply truthy_not_null].
Qed.

Lemma processEmail_first_success_wins_witness :
  let P := Fixture.platform in
  (* an attachment and two links that lead to JSON: the attachment wins *)
  @processEmail P "test/fixtures/attachment-and-link.eml" []
  = (Ok (JObj [("a", JNum 1)]),
     [Run.processing "test/fixtures/attachment-and-link.eml";
      FsExists "test/fixtures/attachment-and-link.eml";
      FsRead "test/fixtures/attachment-and-link.eml";
      Run.checking_attachments; Run.found_in_attachments])
  (* no attachment: the link decides *)
  /\ result_of (@processEmail P "test/fixtures/link-direct.eml" [])
     = Ok (JArr [JNum 1; JNum 2; JNum 3])
  (* two links that lead to JSON: the first wins *)
  /\ @links_loop P ["https://host/file.json"; "https://host/page.html"] []
     = (Ok (JArr [JNum 1; JNum 2; JNum 3]),
        [Run.checking "https://host/file.json";
         HttpGet AnyStatus5s "https://host/file.json"])
  (* a link to a page: the page is chased *)
  /\ @checkLinkForJson P "https://host/page.html" []
     = (Ok (JObj [("ok", JBool true)]),
        [Run.checking "https://host/page.html";
         HttpGet AnyStatus5s "https://host/page.html";
         Run.checking_indirect "https://host/assets/out.json";
         HttpGet Timeout5s "https://host/assets/out.json"])
  (* a link to a page, then a direct link: the chase of the page wins *)
  /\ @links_loop P ["https://host/page.html"; "https://host/file.json"] []
     = (Ok (JObj [("ok", JBool true)]),
        [Run.checking "https://host/page.html";
         HttpGet AnyStatus5s "https://host/page.html";
         Run.checking_indirect "https://host/assets/out.json";
         HttpGet Timeout5s "https://host/assets/out.json"])
  (* a link that is down, then a direct link: the loop goes on *)
  /\ result_of (@links_loop P ["https://host/down"; "https://host/file.json"]
                  [])
     = Ok (JArr [JNum 1; JNum 2; JNum 3])
  /\ @page_loop P "https://host/page.html"
       ["/assets/out.json"; "/assets/out.json"] []
     = (Ok (JObj [("ok", JBool true)]),
        [Run.checking_indirect "https://host/assets/out.json";
         HttpGet Timeout5s "https://host/assets/out.json"]).
Proof.
  intros P.
  pose proof (@processEmail_first_success_wins P
                "test/fixtures/attachment-and-link.eml" []
                "attachment-and-link.eml" _ _ eq_refl eq_refl) as Hfirst.
  pose proof (@processEmail_first_success_wins P
                "test/fixtures/link-direct.eml" []
                "link-direct.eml" _ _ eq_refl eq_refl) as Hsecond.
  cbv zeta in Hfirst, Hsecond.
  destruct Hfirst as [Hatt [_ [Hlink [Hnext [Hdirect [Hchase [Hpage _]]]]]]].
  destruct Hsecond as [_ [Hlinks _]].
  assert (Hpagerun :
            @checkLinkForJson P "https://host/page.html" []
            = (Ok (JObj [("ok", JBool true)]),
               [Run.checking "https://host/page.html";
                HttpGet AnyStatus5s "https://host/page.html";
                Run.checking_indirect "https://host/assets/out.json";
                HttpGet Timeout5s "https://host/assets/out.json"])).
  { apply (Hchase "https://host/page.html" []
             {| status := 200;
                content_type := Some "text/html; charset=utf-8";
                data := JStr "<a href=/assets/out.json>out</a>" |}
             "<a href=/assets/out.json>out</a>" "/assets/out.json" []
             "https://host/assets/out.json"
             {| status := 200; content_type := Some "application/json";
                data := JObj [("ok", JBool true)] |});
      vm_compute; reflexivity. }
  split; [|split; [|split; [|split; [|split; [|split]]]]].
  - exact (proj1 (Hatt eq_refl)).
  - destruct (Hlinks eq_refl) as [l [es [Hl Hrun]]].
    vm_compute in Hl. injection Hl as <- <-. rewrite Hrun. reflexivity.
  - apply (Hlink "https://host/file.json" ["https://host/page.html"] []);
      [reflexivity | | reflexivity].
    exact (Hdirect "https://host/file.json" [] _ eq_refl eq_refl eq_refl).
  - exact Hpagerun.
  - apply (Hlink "https://host/page.html" ["https://host/file.json"] []);
      [reflexivity | exact Hpagerun | reflexivity].
  - rewrite (Hnext "https://host/down" ["https://host/file.json"] []
               JNull
               [Run.checking "https://host/down";
                HttpGet AnyStatus5s "https://host/down";
                Run.failed "https://host/down"
                  (JsError "timeout of 5000ms exceeded")]);
      [ | reflexivity | vm_compute; reflexivity | reflexivity].
    vm_compute. reflexivity.
  - exact (Hpage "https://host/page.html" "/assets/out.json"
             ["/assets/out.json"] [] _ _ eq_refl eq_refl eq_refl eq_refl).
Defined.

(* ================================================================= *)
(** ** Scalar values in attachments *)

(** Claim C4, as the specification states it, fails: the only attachment
    is classified as a JSON candidate and its content, [0], parses to the
    number 0; the caller does not return 0 but goes on to the links and,
    there being none, reports "not found". *)
Lemma falsy_scalar_counterexample :
  let P := Fixture.platform in
  let run := @processEmail P "test/fixtures/zero.eml" [] in
  @simpleParser P "zero.eml"
  = Ok {| attachments := [Fixture.zero_json]; html := None; text := None |}
  /\ isJsonAttachment Fixture.zero_json = true
  /\ @Spec.parse_attachment P Fixture.zero_json = Ok (JNum 0)
  /\ is_scalar (JNum 0) = true
  /\ result_of run = Throw Run.no_json_found
  /\ In Run.checking_links (events_of run)
  /\ result_of run <> Ok (JNum 0).
Proof.
  cbv zeta. repeat split; try reflexivity.
  - vm_compute. tauto.
  - vm_compute. discriminate.
Qed.

(** Claim C4, amended.  Let the first classified attachment that parses
    parse to a scalar value.  When the value is truthy ([true], a number
    other than 0, a non-empty string) the caller returns it as the result
    of the request and issues no request for a link.  When it is falsy
    (it is then [null], [false], 0 or the empty string) the caller cannot
    tell it from "no match": it goes on to the link strategies, and the
    result of the request is theirs, never that value. *)
Theorem scalar_attachment_returned_when_truthy {P : Platform}
    (source : string) (h : trace) (bytes : string) (parsed : ParsedMail)
    (es0 : trace) (a : Attachment) (v : jsval)
    (Hget : getEmailContent source (h ++ [Run.processing source])
            = (Ok bytes, es0))
    (Hparse : simpleParser bytes = Ok parsed)
    (Hfirst : Spec.first_parsable (attachments parsed) = Some a)
    (Hvalue : Spec.parse_attachment a = Ok v)
    (Hscalar : is_scalar v = true) :
  let run := processEmail source h in
  (truthy v = true ->
   result_of run = Ok v
   /\ all_requests (events_of run) = all_requests es0)
  /\ (truthy v = false ->
      Spec.falsy_scalar v
      /\ In Run.checking_links (events_of run)
      /\ result_of run <> Ok v
      /\ exists l es hl,
           extractJsonFromLinks (html parsed) (text parsed) hl = (Ok l, es)
           /\ result_of run
              = if truthy l then Ok l else Throw Run.no_json_found).
Proof.
  intros run.
  pose proof (first_parsable_value_of _ a v Hfirst Hvalue) as Hv.
  destruct (processEmail_by_attachment source h bytes parsed es0 Hget Hparse)
    as [Hatt Hlinks].
  rewrite Hv in Hatt, Hlinks. split; intros Ht.
  - unfold run. rewrite (Hatt Ht). unfold result_of, events_of.
    cbn [fst snd]. split; [reflexivity|].
    unfold Run.processing, Run.checking_attachments,
      Run.found_in_attachments.
    cbn [app all_requests]. rewrite !all_requests_app. cbn [all_requests].
    now rewrite parse_warnings_no_request, !app_nil_r.
  - destruct (Hlinks Ht) as [l [es [Hl Hrun]]]. split; [|split; [|split]].
    + unfold Spec.falsy_scalar.
      destruct v as [|[|]|n|[|c s]|items|fields]; try discriminate; auto.
      cbn [truthy] in Ht. apply negb_false_iff, Z.eqb_eq in Ht.
      subst n. auto.
    + unfold run. rewrite Hrun. unfold events_of.
      destruct (truthy l); cbn [snd]; apply in_or_app; right; now left.
    + unfold run. rewrite Hrun. unfold result_of.
      destruct (truthy l) eqn:Hl'; cbn [fst]; [|discriminate].
      intros E. injection E as ->. congruence.
    + exists l, es. eexists. split; [exact Hl|].
      unfold run. rewrite Hrun. unfold result_of. now destruct (truthy l).
Qed.

Lemma scalar_attachment_returned_when_truthy_witness :
  let P := Fixture.platform in
  (* the number 7 is returned, although a link leads to JSON too *)
  (result_of (@processEmail P "test/fixtures/seven.eml" []) = Ok (JNum 7)
   /\ all_requests (events_of (@processEmail P "test/fixtures/seven.eml" []))
      = [])
  (* the number 0 is not *)
  /\ result_of (@processEmail P "test/fixtures/zero.eml" []) <> Ok (JNum 0).
Proof.
  intros P. split.
  - exact (proj1 (@scalar_attachment_returned_when_truthy P
                    "test/fixtures/seven.eml" [] "seven.eml" _ _
                    Fixture.seven_json (JNum 7)
                    eq_refl eq_refl eq_refl eq_refl eq_refl) eq_refl).
  - exact (proj1 (proj2 (proj2
             (proj2 (@scalar_attachment_returned_when_truthy P
                       "test/fixtures/zero.eml" [] "zero.eml" _ _
                       Fixture.zero_json (JNum 0)
                       eq_refl eq_refl eq_refl eq_refl eq_refl) eq_refl)))).
Defined.

(* ================================================================= *)
(** ** The Link Harvester *)

(** Claim C6.  For every pair of optional bodies, the harvested set holds
    every inserted link string (the non-empty [href]s of the HTML body,
    then the URLs of the text body) exactly once and no other string;
    strings are compared as they are.  The set lists the strings by first
    insertion: it is the list of first occurrences of the inserted strings,
    and one string precedes another in the set exactly when its first
    insertion precedes the other's.  The loop of the link strategies
    iterates over the set in that order. *)
Theorem harvestLinks_distinct_in_insertion_order {P : Platform}
    (html text : option string) :
  let links := harvestLinks html text in
  let raw := Spec.inserted html text in
  NoDup links
  /\ (forall x, In x links <-> In x raw)
  /\ (forall x, count_occ string_dec links x
                = if in_dec string_dec x raw then 1%nat else 0%nat)
  /\ links = Spec.first_occurrences [] raw
  /\ (forall x y,
        In x raw -> In y raw ->
        (Spec.first_index x links < Spec.first_index y links
         <-> Spec.first_index x raw < Spec.first_index y raw)%nat)
  /\ extractJsonFromLinks html text = links_loop links.
Proof.
  intros links raw.
  assert (Heq : links = Spec.first_occurrences [] raw)
    by apply harvestLinks_first_occurrences.
  assert (Hnd : NoDup links)
    by (rewrite Heq; apply first_occurrences_NoDup).
  assert (Hin : forall x, In x links <-> In x raw).
  { intros x. rewrite Heq, first_occurrences_In. cbn [In]. tauto. }
  split; [exact Hnd|]. split; [exact Hin|].
  split; [|split; [exact Heq|split; [|reflexivity]]].
  - intros x. destruct (in_dec string_dec x raw) as [Hx|Hx].
    + apply Hin in Hx. now apply (proj1 (NoDup_count_occ' string_dec links)).
    + apply count_occ_not_In. now rewrite Hin.
  - intros x y Hx Hy. rewrite Heq.
    apply first_occurrences_order; auto.
Qed.

Lemma harvestLinks_distinct_in_insertion_order_witness :
  let P := Fixture.platform in
  let html := Some "<a href=https://host/a>1</a><a name=x>2</a><a href=HTTPS://HOST/A>3</a><a href=https://host/a>4</a><a href=>5</a>" in
  let text := Some "see https://host/b then https://host/a and https://host/b" in
  @Spec.inserted P html text
  = ["https://host/a"; "HTTPS://HOST/A"; "https://host/a";
     "https://host/b"; "https://host/a"; "https://host/b"]
  /\ @harvestLinks P html text
     = ["https://host/a"; "HTTPS://HOST/A"; "https://host/b"]
  /\ count_occ string_dec (@harvestLinks P html text) "https://host/a"
     = 1%nat
  /\ (Spec.first_index "HTTPS://HOST/A" (@harvestLinks P html text)
      < Spec.first_index "https://host/b" (@harvestLinks P html text))%nat.
Proof.
  intros P html text.
  destruct (@harvestLinks_distinct_in_insertion_order P html text)
    as [_ [_ [Hcount [_ [Horder _]]]]].
  assert (Hraw : @Spec.inserted P html text
                 = ["https://host/a"; "HTTPS://HOST/A"; "https://host/a";
                    "https://host/b"; "https://host/a"; "https://host/b"])
    by (vm_compute; reflexivity).
  assert (Hlinks : @harvestLinks P html text
                   = ["https://host/a"; "HTTPS://HOST/A"; "https://host/b"])
    by (vm_compute; reflexivity).
  split; [exact Hraw|]. split; [exact Hlinks|]. split.
  - rewrite (Hcount "https://host/a"), Hraw. vm_compute. reflexivity.
  - apply (proj2 (Horder "HTTPS://HOST/A" "https://host/b"
                    ltac:(rewrite Hraw; vm_compute; tauto)
                    ltac:(rewrite Hraw; vm_compute; tauto))).
    rewrite Hraw. vm_compute. lia.
Defined.

(* ================================================================= *)
(** ** The Link Resolver *)

(** Claim C5.  The Link Resolver ([checkLinkForJson]) issues its GET, under
    its own configuration, on every invocation, and nothing else issues a
    GET under that configuration.  In a run of [extractJsonFromLinks] every
    such GET is to a harvested link that begins neither with [mailto:] nor
    with [#]; a link that begins with one of them is passed over without
    any effect. *)
Theorem discarded_links_never_resolved {P : Platform}
    (html text : option string) (h : trace) :
  (forall u,
     In u (requests AnyStatus5s
             (events_of (extractJsonFromLinks html text h))) ->
     In u (harvestLinks html text)
     /\ Js.startsWith u "mailto:" = false
     /\ Js.startsWith u "#" = false)
  /\ (forall link rest h',
        Js.startsWith link "mailto:" = true
        \/ Js.startsWith link "#" = true ->
        links_loop (link :: rest) h' = links_loop rest h')
  /\ (forall u h',
        exists es,
          events_of (checkLinkForJson u h')
          = Run.checking u :: HttpGet AnyStatus5s u :: es)
  /\ (forall page baseUrl h',
        requests AnyStatus5s
          (events_of (extractJsonFromHtmlPage page baseUrl h')) = []).
Proof.
  split; [|split; [|split]].
  - intros u Hin. unfold extractJsonFromLinks in Hin.
    destruct (links_loop_total (harvestLinks html text) h)
      as [v [es [Hrun [k Hk]]]].
    rewrite Hrun in Hin. unfold events_of in Hin. cbn [snd] in Hin.
    rewrite Hk in Hin. apply firstn_incl, filter_In in Hin as [Hin Hd].
    split; [exact Hin|]. apply negb_true_iff, orb_false_iff in Hd.
    exact Hd.
  - intros link rest h' Hd. apply links_loop_discard.
    unfold Spec.discarded. apply orb_true_iff. exact Hd.
  - intros u h'.
    destruct (checkLinkForJson_total u h') as [v [es [-> [_ [es' ->]]]]].
    unfold events_of, Run.link_events. cbn [snd app]. eauto.
  - intros page baseUrl h'.
    destruct (extractJsonFromHtmlPage_total page baseUrl h')
      as [v [es [-> Hr]]].
    exact Hr.
Qed.

Lemma discarded_links_never_resolved_witness :
  let P := Fixture.platform in
  let html := Some "<a href=mailto:ops@host>ops</a><a href=#top>top</a><a href=https://host/file.json>file</a>" in
  @harvestLinks P html None
  = ["mailto:ops@host"; "#top"; "https://host/file.json"]
  /\ ~ In "mailto:ops@host"
       (requests AnyStatus5s
          (events_of (@extractJsonFromLinks P html None [])))
  /\ ~ In "#top"
       (requests AnyStatus5s
          (events_of (@extractJsonFromLinks P html None [])))
  /\ @links_loop P ["mailto:ops@host"; "#top"] [] = (Ok JNull, []).
Proof.
  intros P html.
  destruct (@discarded_links_never_resolved P html None [])
    as [Hreq [Hskip _]].
  split; [reflexivity|]. split; [|split].
  - intros Hin. destruct (Hreq _ Hin) as [_ [Hm _]]. discriminate Hm.
  - intros Hin. destruct (Hreq _ Hin) as [_ [_ Hm]]. discriminate Hm.
  - rewrite (Hskip "mailto:ops@host" ["#top"] [] (or_introl eq_refl)).
    exact (Hskip "#top" [] [] (or_intror eq_refl)).
Defined.

(** Claim C7.  When the answer to the resolver's GET has a status other
    than 200, the resolver reports no match ([null]) right after the GET:
    nothing is classified and no page is chased.  Conversely, a result
    other than [null], and a chase, only come from an answer of status
    200. *)
Theorem non_200_is_no_match {P : Platform} (u : string) (h : trace) :
  (forall r,
     network (h ++ [Run.checking u]) u = Ok r ->
     status r <> 200 ->
     checkLinkForJson u h
     = (Ok JNull, [Run.checking u; HttpGet AnyStatus5s u]))
  /\ (forall v,
        result_of (checkLinkForJson u h) = Ok v ->
        v <> JNull ->
        exists r, network (h ++ [Run.checking u]) u = Ok r
                  /\ status r = 200)
  /\ (forall page,
        Run.link_completion h u = ReturnChase page ->
        exists r, network (h ++ [Run.checking u]) u = Ok r
                  /\ status r = 200)
  /\ (requests Timeout5s (events_of (checkLinkForJson u h)) <> [] ->
      exists r, network (h ++ [Run.checking u]) u = Ok r
                /\ status r = 200).
Proof.
  assert (Hnot : forall r, network (h ++ [Run.checking u]) u = Ok r ->
                           status r <> 200 ->
                           checkLinkForJson u h
                           = (Ok JNull, [Run.checking u;
                                         HttpGet AnyStatus5s u])).
  { intros r Hnet Hs. rewrite checkLinkForJson_run.
    unfold Run.link_completion, Run.link_events. rewrite Hnet.
    apply Z.eqb_neq in Hs. now rewrite Hs. }
  assert (Hcases : (exists r, network (h ++ [Run.checking u]) u = Ok r
                              /\ status r = 200)
                   \/ exists tail,
                        checkLinkForJson u h
                        = (Ok JNull, Run.checking u
                                       :: HttpGet AnyStatus5s u :: tail)
                        /\ requests Timeout5s tail = []
                        /\ forall page,
                             Run.link_completion h u <> ReturnChase page).
  { destruct (network (h ++ [Run.checking u]) u) as [r|e] eqn:Hnet.
    - destruct (Z.eq_dec (status r) 200) as [Hs|Hs].
      + left. now exists r.
      + right. exists []. split; [now apply (Hnot r)|].
        split; [reflexivity|]. intros page.
        unfold Run.link_completion. rewrite Hnet.
        apply Z.eqb_neq in Hs. rewrite Hs. discriminate.
    - right. exists [Run.failed u e]. rewrite checkLinkForJson_run.
      unfold Run.link_completion, Run.link_events. rewrite Hnet.
      repeat split. discriminate. }
  split; [exact Hnot|]. split; [|split].
  - intros v Hv Hnn. destruct Hcases as [H|[tail [Hrun _]]]; [exact H|].
    rewrite Hrun in Hv. unfold result_of in Hv. cbn [fst] in Hv.
    injection Hv as <-. now elim Hnn.
  - intros page Hc. destruct Hcases as [H|[tail [_ [_ Hno]]]]; [exact H|].
    now elim (Hno page).
  - intros Hne. destruct Hcases as [H|[tail [Hrun [Ht _]]]]; [exact H|].
    elim Hne. rewrite Hrun. unfold events_of, Run.checking.
    cbn [snd requests]. exact Ht.
Qed.

Lemma non_200_is_no_match_witness :
  let P := Fixture.platform in
  (* a redirect whose body is JSON under a JSON content-type *)
  @network P [Run.checking "https://host/moved"] "https://host/moved"
  = Ok {| status := 301; content_type := Some "application/json";
          data := JObj [("moved", JBool true)] |}
  /\ @checkLinkForJson P "https://host/moved" []
     = (Ok JNull, [Run.checking "https://host/moved";
                   HttpGet AnyStatus5s "https://host/moved"])
  /\ (exists r, @network P [Run.checking "https://host/file.json"]
                  "https://host/file.json" = Ok r /\ status r = 200).
Proof.
  intros P. split; [reflexivity|]. split.
  - apply (proj1 (@non_200_is_no_match P "https://host/moved" []) _ eq_refl).
    discriminate.
  - apply (proj1 (proj2 (@non_200_is_no_match P "https://host/file.json" []))
             (JArr [JNum 1; JNum 2; JNum 3]) eq_refl).
    discriminate.
Defined.

(** Claim C8.  An error thrown by the resolver's GET is caught: the
    resolver logs it and reports no match for that link, and the loop over
    the harvested links goes on with the next link.  An error thrown by the
    chaser's GET for a candidate of a page is swallowed likewise, and the
    chase goes on with the next link of the page.  Neither the resolver nor
    the link strategies ever throw, and once the message is decoded the
    only failure of a request is "not found". *)
Theorem fetch_errors_are_contained {P : Platform} :
  (forall u h e,
     network (h ++ [Run.checking u]) u = Throw e ->
     checkLinkForJson u h
     = (Ok JNull, [Run.checking u; HttpGet AnyStatus5s u; Run.failed u e]))
  /\ (forall link rest h e,
        Spec.discarded link = false ->
        network (h ++ [Run.checking link]) link = Throw e ->
        links_loop (link :: rest) h
        = let tried := [Run.checking link; HttpGet AnyStatus5s link;
                        Run.failed link e] in
          let (r, es) := links_loop rest (h ++ tried) in (r, tried ++ es))
  /\ (forall baseUrl link rest h u e,
        URL_resolve link baseUrl = Ok u ->
        looks_like_json u = true ->
        network (h ++ [Run.checking_indirect u]) u = Throw e ->
        page_loop baseUrl (link :: rest) h
        = let tried := [Run.checking_indirect u; HttpGet Timeout5s u] in
          let (r, es) := page_loop baseUrl rest (h ++ tried) in
          (r, tried ++ es))
  /\ (forall u h, exists v, result_of (checkLinkForJson u h) = Ok v)
  /\ (forall html text h,
        exists v, result_of (extractJsonFromLinks html text h) = Ok v)
  /\ (forall source h bytes parsed es0 e,
        getEmailContent source (h ++ [Run.processing source])
        = (Ok bytes, es0) ->
        simpleParser bytes = Ok parsed ->
        result_of (processEmail source h) = Throw e ->
        e = Run.no_json_found).
Proof.
  assert (Hcheck : forall u h e,
             network (h ++ [Run.checking u]) u = Throw e ->
             checkLinkForJson u h
             = (Ok JNull, [Run.checking u; HttpGet AnyStatus5s u;
                           Run.failed u e])).
  { intros u h e Hnet. rewrite checkLinkForJson_run.
    unfold Run.link_completion, Run.link_events. now rewrite Hnet. }
  split; [exact Hcheck|]. split; [|split; [|split; [|split]]].
  - intros link rest h e Hd Hnet.
    now rewrite (links_loop_step link rest h _ _ Hd (Hcheck link h e Hnet)).
  - intros baseUrl link rest h u e Hu Hj Hnet.
    rewrite (page_loop_step baseUrl link u rest h Hu Hj).
    unfold Run.page_answer. now rewrite Hnet.
  - intros u h. destruct (checkLinkForJson_total u h) as [v [es [-> _]]].
    now exists v.
  - intros html text h.
    destruct (extractJsonFromLinks_total html text h) as [v [es ->]].
    now exists v.
  - intros source h bytes parsed es0 e Hget Hparse Hthrow.
    destruct (processEmail_by_attachment source h bytes parsed es0
                Hget Hparse) as [Hatt Hlinks].
    destruct (truthy (Spec.first_parsable_value (attachments parsed))).
    + rewrite (Hatt eq_refl) in Hthrow. discriminate Hthrow.
    + destruct (Hlinks eq_refl) as [l [es [_ Hrun]]].
      rewrite Hrun in Hthrow. unfold result_of in Hthrow.
      destruct (truthy l); cbn [fst] in Hthrow; [discriminate Hthrow|].
      now injection Hthrow as <-.
Qed.

Lemma fetch_errors_are_contained_witness :
  let P := Fixture.platform in
  let down := "https://host/down" in
  let timeout := JsError "timeout of 5000ms exceeded" in
  @checkLinkForJson P down []
  = (Ok JNull, [Run.checking down; HttpGet AnyStatus5s down;
                Run.failed down timeout])
  (* the next link is tried, and leads to JSON *)
  /\ result_of (@links_loop P [down; "https://host/file.json"] [])
     = Ok (JArr [JNum 1; JNum 2; JNum 3])
  (* the next link of the page is tried, and leads to JSON *)
  /\ result_of (@page_loop P "https://host/retry.html"
                  ["/down.json"; "/assets/out.json"] [])
     = Ok (JObj [("ok", JBool true)])
  (* no link is left: not found *)
  /\ (forall e, result_of (@processEmail P "test/fixtures/empty.eml" [])
                = Throw e -> e = Run.no_json_found).
Proof.
  intros P down timeout.
  destruct (@fetch_errors_are_contained P)
    as [Hcheck [Hlinks [Hpage [_ [_ Hreq]]]]].
  split; [|split; [|split]].
  - exact (Hcheck down [] timeout eq_refl).
  - rewrite (Hlinks down ["https://host/file.json"] [] timeout
               eq_refl eq_refl).
    reflexivity.
  - rewrite (Hpage "https://host/retry.html" "/down.json"
               ["/assets/out.json"] [] "https://host/down.json" timeout
               eq_refl eq_refl eq_refl).
    reflexivity.
  - intros e. exact (Hreq "test/fixtures/empty.eml" [] "empty.eml" _ _ e
                       eq_refl eq_refl).
Defined.

(* ================================================================= *)
(** ** Two notions of a structured body *)

(** Claim C10.  Take an answer of status 200 whose decoded body is [null]
    and whose content-type does not contain [application/json].  The
    chaser's test accepts it, the resolver's "direct JSON" test does not.
    So the chaser, getting this answer for a candidate, returns [null]
    at once and leaves the later links of the page unexamined; the
    resolver, getting this answer for a link, falls out of its [try] block
    to the final [return null]. *)
Theorem chaser_accepts_null_resolver_does_not {P : Platform} (r : response)
    (Hstatus : status r = 200)
    (Hnull : data r = JNull)
    (Hct : Js.includes (header_or_empty (content_type r)) "application/json"
           = false) :
  page_accepts r = true
  /\ direct_json r = false
  /\ (forall baseUrl link rest h u,
        URL_resolve link baseUrl = Ok u ->
        looks_like_json u = true ->
        network (h ++ [Run.checking_indirect u]) u = Ok r ->
        page_loop baseUrl (link :: rest) h
        = (Ok JNull, [Run.checking_indirect u; HttpGet Timeout5s u]))
  /\ (forall u h,
        network (h ++ [Run.checking u]) u = Ok r ->
        Run.link_completion h u = FallThrough
        /\ checkLinkForJson u h
           = (Ok JNull, [Run.checking u; HttpGet AnyStatus5s u])).
Proof.
  assert (Ha : page_accepts r = true).
  { unfold page_accepts. now rewrite Hstatus, Hct, Hnull. }
  assert (Hd : direct_json r = false).
  { unfold direct_json. now rewrite Hct, Hnull. }
  split; [exact Ha|]. split; [exact Hd|]. split.
  - intros baseUrl link rest h u Hu Hj Hnet.
    rewrite (page_loop_step baseUrl link u rest h Hu Hj).
    unfold Run.page_answer. now rewrite Hnet, Ha, Hnull.
  - intros u h Hnet.
    assert (Hc : Run.link_completion h u = FallThrough).
    { unfold Run.link_completion. rewrite Hnet, Hstatus, Hd, Hnull.
      cbn [Z.eqb negb as_string Pos.eqb].
      now destruct (Js.includes _ "text/html"). }
    split; [exact Hc|]. rewrite checkLinkForJson_run, Hc.
    unfold Run.link_events. now rewrite Hnet.
Qed.

Lemma chaser_accepts_null_resolver_does_not_witness :
  let P := Fixture.platform in
  let void := {| status := 200; content_type := Some "text/plain";
                 data := JNull |} in
  @network P [] "https://host/void.json" = Ok void
  /\ page_accepts void = true
  /\ direct_json void = false
  (* the chase stops at the candidate, before a link that leads to JSON *)
  /\ @page_loop P "https://host/chase.html"
       ["/void.json"; "/assets/out.json"] []
     = (Ok JNull, [Run.checking_indirect "https://host/void.json";
                   HttpGet Timeout5s "https://host/void.json"])
  /\ @Run.link_completion P [] "https://host/void.json" = FallThrough.
Proof.
  intros P void.
  destruct (@chaser_accepts_null_resolver_does_not P void
              eq_refl eq_refl eq_refl) as [Ha [Hd [Hpage Hlink]]].
  split; [reflexivity|]. split; [exact Ha|]. split; [exact Hd|]. split.
  - exact (Hpage "https://host/chase.html" "/void.json"
             ["/assets/out.json"] [] "https://host/void.json"
             eq_refl eq_refl eq_refl).
  - exact (proj1 (Hlink "https://host/void.json" [] eq_refl)).
Defined.

(* ================================================================= *)
(** ** The Page Link Chaser *)

(** Claim C9.  The chaser resolves every link of the page against the base
    it is given, which the resolver sets to the URL of the page itself.
    A link whose resolution fails is skipped and the chase goes on.  Every
    GET of the chase is to the resolution of a link of the page that passes
    the heuristic, and a resolved URL that fails the heuristic is not
    fetched; the heuristic holds exactly when the URL, its query string
    stripped, ends with [.json] up to case.  In particular, when
    [data/export.json?v=2] resolves against [https://example.com/landing]
    to [https://example.com/data/export.json?v=2], that URL passes the
    heuristic and is fetched. *)
Theorem page_links_resolved_and_filtered {P : Platform} :
  (forall html baseUrl h u,
     In u (all_requests (events_of (extractJsonFromHtmlPage html baseUrl h)))
     -> exists link,
          In link (add_hrefs [] (anchor_hrefs html))
          /\ URL_resolve link baseUrl = Ok u
          /\ looks_like_json u = true)
  /\ (forall u,
        looks_like_json u = true
        <-> exists stripped, Spec.query_stripped u stripped
                             /\ Spec.ends_ignore_case stripped ".json")
  /\ (forall baseUrl link rest h e,
        URL_resolve link baseUrl = Throw e ->
        page_loop baseUrl (link :: rest) h = page_loop baseUrl rest h)
  /\ (forall baseUrl link rest h u,
        URL_resolve link baseUrl = Ok u ->
        looks_like_json u = false ->
        page_loop baseUrl (link :: rest) h = page_loop baseUrl rest h)
  /\ (forall baseUrl link rest h u,
        URL_resolve link baseUrl = Ok u ->
        looks_like_json u = true ->
        exists es,
          events_of (page_loop baseUrl (link :: rest) h)
          = Run.checking_indirect u :: HttpGet Timeout5s u :: es)
  /\ (forall u h page,
        Run.link_completion h u = ReturnChase page ->
        checkLinkForJson u h
        = let (r, es) := extractJsonFromHtmlPage page u
                           (h ++ Run.link_events h u) in
          (r, Run.link_events h u ++ es))
  /\ (looks_like_json "https://example.com/data/export.json?v=2" = true
      /\ forall rest h,
           URL_resolve "data/export.json?v=2" "https://example.com/landing"
           = Ok "https://example.com/data/export.json?v=2" ->
           exists es,
             events_of (page_loop "https://example.com/landing"
                          ("data/export.json?v=2" :: rest) h)
             = Run.checking_indirect
                 "https://example.com/data/export.json?v=2"
               :: HttpGet Timeout5s
                    "https://example.com/data/export.json?v=2"
               :: es).
Proof.
  assert (Hfetch : forall baseUrl link rest h u,
             URL_resolve link baseUrl = Ok u ->
             looks_like_json u = true ->
             exists es,
               events_of (page_loop baseUrl (link :: rest) h)
               = Run.checking_indirect u :: HttpGet Timeout5s u :: es).
  { intros baseUrl link rest h u Hu Hj.
    rewrite (page_loop_step baseUrl link u rest h Hu Hj). cbv zeta.
    destruct (Run.page_answer h u) as [v|].
    - now exists [].
    - destruct (page_loop baseUrl rest _) as [r es]. now exists es. }
  split; [|split; [|split; [|split; [|split; [|split]]]]].
  - intros html baseUrl h u Hin. unfold extractJsonFromHtmlPage in Hin.
    destruct (page_loop_total baseUrl (add_hrefs [] (anchor_hrefs html)) h)
      as [v [es [Hrun [_ [k Hk]]]]].
    rewrite Hrun in Hin. unfold events_of in Hin. cbn [snd] in Hin.
    rewrite Hk in Hin. apply firstn_incl in Hin.
    unfold Spec.page_candidates in Hin.
    apply in_flat_map in Hin as [link [Hlink Hu]].
    exists link. split; [exact Hlink|].
    destruct (URL_resolve link baseUrl) as [w|e]; [|now destruct Hu].
    destruct (looks_like_json w) eqn:Hj; [|now destruct Hu].
    destruct Hu as [->|[]]. now split.
  - exact looks_like_json_spec.
  - intros baseUrl link rest h e. apply page_loop_unresolved.
  - intros baseUrl link rest h u. apply page_loop_not_json.
  - exact Hfetch.
  - intros u h page Hc. now rewrite checkLinkForJson_run, Hc.
  - split; [reflexivity|]. intros rest h Hu.
    now apply (Hfetch _ _ rest h _ Hu).
Qed.

Lemma page_links_resolved_and_filtered_witness :
  let P := Fixture.platform in
  let landing := "https://example.com/landing" in
  let export := "https://example.com/data/export.json?v=2" in
  @URL_resolve P "data/export.json?v=2" landing = Ok export
  /\ (exists stripped, Spec.query_stripped export stripped
                       /\ Spec.ends_ignore_case stripped ".json")
  /\ (exists es,
        events_of (@page_loop P landing ["data/export.json?v=2"] [])
        = Run.checking_indirect export :: HttpGet Timeout5s export :: es)
  (* a link that does not resolve is skipped *)
  /\ @page_loop P "https://host/chase.html" ["http://["; "/assets/out.json"] []
     = @page_loop P "https://host/chase.html" ["/assets/out.json"] []
  (* the resolver chases the page with the URL of the page as base *)
  /\ @checkLinkForJson P landing []
     = (Ok (JObj []),
        [Run.checking landing; HttpGet AnyStatus5s landing;
         Run.checking_indirect export; HttpGet Timeout5s export]).
Proof.
  intros P landing export.
  destruct (@page_links_resolved_and_filtered P)
    as [_ [Hspec [Hskip [_ [_ [Hbase [Hjson Hexport]]]]]]].
  split; [reflexivity|]. split; [|split; [|split]].
  - exact (proj1 (Hspec export) Hjson).
  - exact (Hexport [] [] eq_refl).
  - exact (Hskip "https://host/chase.html" "http://[" ["/assets/out.json"]
             [] (JsError "Invalid URL") eq_refl).
  - rewrite (Hbase landing [] "<a href=data/export.json?v=2>export</a>"
               eq_refl).
    reflexivity.
Defined.

(* ================================================================= *)
(** ** Fetching and decoding the message *)

Section SourceFacts.

Context {P : Platform}.

Lemma getEmailContent_remote (source : string) (h : trace) :
  More.remote source = true ->
  getEmailContent source h
  = (match download h source with
     | Ok bytes => Ok bytes
     | Throw e => Throw (BadRequestException
                           ("Failed to fetch email from URL: " ^^ message e))
     end, [HttpGet ArrayBuffer source]).
Proof.
  intros Hr. unfold getEmailContent. fold (More.remote source). rewrite Hr.
  unfold try_catch, throw. now destruct (download h source).
Qed.

Lemma getEmailContent_local (source : string) (h : trace) :
  More.remote source = false ->
  getEmailContent source h
  = if fs_existsSync h source
    then (match fs_readFileSync (h ++ [FsExists source]) source with
          | Ok bytes => Ok bytes
          | Throw e => Throw (BadRequestException
                                ("Failed to read file: " ^^ message e))
          end, [FsExists source; FsRead source])
    else (Throw (NotFoundException ("File not found at path: " ^^ source)),
          [FsExists source]).
Proof.
  intros Hr. unfold getEmailContent. fold (More.remote source). rewrite Hr.
  unfold bind, try_catch, throw.
  destruct (fs_existsSync h source); cbn [negb]; [|reflexivity].
  now destruct (fs_readFileSync (h ++ [FsExists source]) source).
Qed.

Lemma processEmail_not_fetched (source : string) (h : trace) (e : exn)
    (es0 : trace) :
  getEmailContent source (h ++ [Run.processing source]) = (Throw e, es0) ->
  processEmail source h = (Throw e, Run.processing source :: es0).
Proof.
  intros Hget. unfold processEmail, bind, log, emit.
  fold (Run.processing source). now rewrite Hget.
Qed.

Lemma processEmail_not_decoded (source : string) (h : trace)
    (bytes : string) (e : exn) (es0 : trace) :
  getEmailContent source (h ++ [Run.processing source]) = (Ok bytes, es0) ->
  simpleParser bytes = Throw e ->
  processEmail source h
  = (Throw (BadRequestException ("Failed to parse email: " ^^ message e)),
     Run.processing source :: es0).
Proof.
  intros Hget Hparse. unfold processEmail, bind, log, emit, try_catch, lift.
  fold (Run.processing source). rewrite Hget, Hparse. unfold throw.
  now rewrite !app_nil_r.
Qed.

End SourceFacts.

(** X1.  [getEmailContent] chooses by the prefix of the source.  A source
    that begins with [http://] or [https://] costs one GET and no access to
    the file system; any other source costs no GET, is looked up first, and
    is read only when it exists.  Whatever goes wrong, the exception is
    classified: "not found" exactly for a local source that does not exist,
    "bad request" otherwise; no raw error escapes. *)
Theorem getEmailContent_classified {P : Platform} (source : string)
    (h : trace) :
  let run := getEmailContent source h in
  (More.remote source = true ->
   events_of run = [HttpGet ArrayBuffer source])
  /\ (More.remote source = false ->
      all_requests (events_of run) = []
      /\ exists tail, events_of run = FsExists source :: tail)
  /\ (forall e, result_of run = Throw e -> More.classified e)
  /\ (forall m, result_of run = Throw (NotFoundException m) ->
      More.remote source = false
      /\ fs_existsSync h source = false
      /\ ~ In (FsRead source) (events_of run)
      /\ m = "File not found at path: " ^^ source)
  /\ (More.remote source = false -> fs_existsSync h source = false ->
      result_of run
      = Throw (NotFoundException ("File not found at path: " ^^ source))).
Proof.
  cbv zeta. destruct (More.remote source) eqn:Hr.
  - rewrite (getEmailContent_remote source h Hr).
    unfold events_of, result_of. cbn [fst snd].
    split; [reflexivity|]. split; [discriminate|]. split; [|split].
    + intros e He. destruct (download h source); [discriminate He|].
      injection He as <-. exact I.
    + intros m Hm. destruct (download h source); discriminate Hm.
    + discriminate.
  - rewrite (getEmailContent_local source h Hr).
    unfold events_of, result_of.
    destruct (fs_existsSync h source); cbn [fst snd].
    + split; [discriminate|]. split; [intros _; split; eauto|].
      split; [|split].
      * intros e He. destruct (fs_readFileSync _ source); [discriminate He|].
        injection He as <-. exact I.
      * intros m Hm. destruct (fs_readFileSync _ source); discriminate Hm.
      * discriminate.
    + split; [discriminate|]. split; [intros _; split; eauto|].
      split; [|split].
      * intros e He. injection He as <-. exact I.
      * intros m Hm. injection Hm as <-. repeat split.
        intros [H|[]]. discriminate H.
      * reflexivity.
Qed.

Lemma getEmailContent_classified_witness :
  let P := Fixture.platform in
  events_of (@getEmailContent P "https://host/mail.eml" [])
  = [HttpGet ArrayBuffer "https://host/mail.eml"]
  /\ More.classified (BadRequestException
       "Failed to fetch email from URL: getaddrinfo ENOTFOUND")
  /\ all_requests (events_of (@getEmailContent P "HTTP://host/mail.eml" []))
     = []
  /\ result_of (@getEmailContent P "test/fixtures/nothing.eml" [])
     = Throw (NotFoundException
                "File not found at path: test/fixtures/nothing.eml").
Proof.
  intros P.
  destruct (@getEmailContent_classified P "https://host/mail.eml" [])
    as [Hremote [_ [Hclass _]]].
  destruct (@getEmailContent_classified P "HTTP://host/mail.eml" [])
    as [_ [Hlocal _]].
  destruct (@getEmailContent_classified P "test/fixtures/nothing.eml" [])
    as [_ [_ [_ [_ Hmissing]]]].
  split; [exact (Hremote eq_refl)|]. split; [|split].
  - exact (Hclass _ eq_refl).
  - exact (proj1 (Hlocal eq_refl)).
  - exact (Hmissing eq_refl eq_refl).
Defined.

(** X2.  Whatever the source and the platform, a request ends in one of
    three ways: with a truthy value, with "not found", or with "bad
    request".  It never resolves with [null], [false], 0 or the empty
    string, and never fails with a raw error. *)
Theorem processEmail_outcomes {P : Platform} (source : string) (h : trace) :
  match result_of (processEmail source h) with
  | Ok v => truthy v = true
  | Throw e => More.classified e
  end.
Proof.
  destruct (getEmailContent source (h ++ [Run.processing source]))
    as [[bytes|e] es0] eqn:Hget.
  - destruct (simpleParser bytes) as [parsed|e] eqn:Hparse.
    + destruct (processEmail_by_attachment source h bytes parsed es0
                  Hget Hparse) as [Hatt Hlinks].
      destruct (truthy (Spec.first_parsable_value (attachments parsed)))
        eqn:Ht.
      * now rewrite (Hatt eq_refl).
      * destruct (Hlinks eq_refl) as [l [es [_ ->]]].
        destruct (truthy l) eqn:Hl; [exact Hl | exact I].
    + now rewrite (processEmail_not_decoded source h bytes e es0 Hget Hparse).
  - rewrite (processEmail_not_fetched source h e es0 Hget).
    destruct (getEmailContent_classified source
                (h ++ [Run.processing source])) as [_ [_ [Hclass _]]].
    apply Hclass. now rewrite Hget.
Qed.

(** X3.  When the source cannot be fetched the request fails with the
    exception of [getEmailContent]; when the bytes cannot be decoded it
    fails with "bad request" and the parser's message.  In both cases
    nothing happens after the failure: no strategy runs, no link is
    fetched.  Conversely, the failure "No JSON found" only comes after both
    the attachments and the links have been checked. *)
Theorem processEmail_fails_before_strategies {P : Platform}
    (source : string) (h : trace) :
  (forall e es0,
     getEmailContent source (h ++ [Run.processing source]) = (Throw e, es0) ->
     processEmail source h = (Throw e, Run.processing source :: es0))
  /\ (forall bytes e es0,
        getEmailContent source (h ++ [Run.processing source])
        = (Ok bytes, es0) ->
        simpleParser bytes = Throw e ->
        processEmail source h
        = (Throw (BadRequestException
                    ("Failed to parse email: " ^^ message e)),
           Run.processing source :: es0))
  /\ (result_of (processEmail source h) = Throw Run.no_json_found ->
      In Run.checking_attachments (events_of (processEmail source h))
      /\ In Run.checking_links (events_of (processEmail source h))).
Proof.
  split; [|split].
  - intros e es0. apply processEmail_not_fetched.
  - intros bytes e es0. apply processEmail_not_decoded.
  - destruct (getEmailContent source (h ++ [Run.processing source]))
      as [[bytes|e] es0] eqn:Hget.
    + destruct (simpleParser bytes) as [parsed|e] eqn:Hparse.
      * destruct (processEmail_by_attachment source h bytes parsed es0
                    Hget Hparse) as [Hatt Hlinks].
        destruct (truthy (Spec.first_parsable_value (attachments parsed))).
        -- rewrite (Hatt eq_refl). discriminate.
        -- destruct (Hlinks eq_refl) as [l [es [_ ->]]].
           destruct (truthy l); [discriminate|]. intros _.
           unfold events_of. cbn [snd]. split.
           ++ right. apply in_or_app. left. apply in_or_app. right.
              now left.
           ++ apply in_or_app. right. now left.
      * rewrite (processEmail_not_decoded source h bytes e es0 Hget Hparse).
        discriminate.
    + rewrite (processEmail_not_fetched source h e es0 Hget).
      unfold result_of. cbn [fst]. intros He. injection He as ->.
      destruct (getEmailContent_classified source
                  (h ++ [Run.processing source])) as [_ [_ [_ [Hnf _]]]].
      rewrite Hget in Hnf. destruct (Hnf _ eq_refl) as [_ [_ [_ Hm]]].
      discriminate Hm.
Qed.

Lemma processEmail_fails_before_strategies_witness :
  let P := Fixture.platform in
  @processEmail P "https://host/mail.eml" []
  = (Throw (BadRequestException
              "Failed to fetch email from URL: getaddrinfo ENOTFOUND"),
     [Run.processing "https://host/mail.eml";
      HttpGet ArrayBuffer "https://host/mail.eml"]).
Proof.
  intros P.
  exact (proj1 (@processEmail_fails_before_strategies P
                  "https://host/mail.eml" []) _ _ eq_refl).
Defined.

(* ================================================================= *)
(** ** The controller *)

(** X4.  The controller takes the [url] parameter when it is given and not
    empty, whatever [path] is, and [path] otherwise; the request is then
    that of [processEmail] on the source.  With neither, it fails with "bad
    request" before anything is logged or fetched. *)
Theorem extractJson_source {P : Platform} (query : ExtractEmailDto)
    (h : trace) :
  (forall u, url query = Some u -> Js.nonempty u = true ->
             extractJson query h = processEmail u h)
  /\ (forall p, Js.truthy_str (url query) = false ->
                path query = Some p -> Js.nonempty p = true ->
                extractJson query h = processEmail p h)
  /\ (Js.truthy_str (url query) = false ->
      Js.truthy_str (path query) = false ->
      exists m, extractJson query h = (Throw (BadRequestException m), []))
  /\ match result_of (extractJson query h) with
     | Ok v => truthy v = true
     | Throw e => More.classified e
     end.
Proof.
  assert (H1 : forall u, url query = Some u -> Js.nonempty u = true ->
                         extractJson query h = processEmail u h).
  { intros u Hu Hn. unfold extractJson. rewrite Hu. cbn [Js.truthy_str].
    rewrite Hn. cbn [Js.truthy_str]. now rewrite Hn. }
  assert (H2 : forall p, Js.truthy_str (url query) = false ->
                         path query = Some p -> Js.nonempty p = true ->
                         extractJson query h = processEmail p h).
  { intros p Hu Hp Hn. unfold extractJson. rewrite Hu, Hp.
    cbn [Js.truthy_str]. now rewrite Hn. }
  assert (H3 : Js.truthy_str (url query) = false ->
               Js.truthy_str (path query) = false ->
               exists m, extractJson query h
                         = (Throw (BadRequestException m), [])).
  { intros Hu Hp. unfold extractJson. rewrite Hu, Hp. cbn [negb].
    eexists. reflexivity. }
  split; [exact H1|]. split; [exact H2|]. split; [exact H3|].
  destruct (url query) as [u|] eqn:Hu.
  - destruct (Js.nonempty u) eqn:Hn.
    + rewrite (H1 u eq_refl Hn). apply processEmail_outcomes.
    + destruct (path query) as [p|] eqn:Hp.
      * destruct (Js.nonempty p) eqn:Hpn.
        -- rewrite (H2 p Hn eq_refl Hpn). apply processEmail_outcomes.
        -- destruct (H3 Hn Hpn) as [m ->]. exact I.
      * destruct (H3 Hn eq_refl) as [m ->]. exact I.
  - destruct (path query) as [p|] eqn:Hp.
    + destruct (Js.nonempty p) eqn:Hpn.
      * rewrite (H2 p eq_refl eq_refl Hpn). apply processEmail_outcomes.
      * destruct (H3 eq_refl Hpn) as [m ->]. exact I.
    + destruct (H3 eq_refl eq_refl) as [m ->]. exact I.
Qed.

Lemma extractJson_source_witness :
  let P := Fixture.platform in
  @extractJson P {| url := Some "test/fixtures/empty.eml";
                    path := Some "test/fixtures/attachment.eml" |} []
  = @processEmail P "test/fixtures/empty.eml" []
  /\ @extractJson P {| url := Some EmptyString;
                       path := Some "test/fixtures/attachment.eml" |} []
     = @processEmail P "test/fixtures/attachment.eml" []
  /\ exists m, @extractJson P {| url := None; path := Some EmptyString |} []
               = (Throw (BadRequestException m), []).
Proof.
  intros P. split; [|split].
  - exact (proj1 (@extractJson_source P
                    {| url := Some "test/fixtures/empty.eml";
                       path := Some "test/fixtures/attachment.eml" |} [])
             _ eq_refl eq_refl).
  - exact (proj1 (proj2 (@extractJson_source P
                    {| url := Some EmptyString;
                       path := Some "test/fixtures/attachment.eml" |} []))
             _ eq_refl eq_refl eq_refl).
  - exact (proj1 (proj2 (proj2 (@extractJson_source P
                    {| url := None; path := Some EmptyString |} [])))
             eq_refl eq_refl).
Defined.

(* ================================================================= *)
(** ** URLs in the text body *)

Section TextFacts.

Lemma drop_append (a b : string) : drop (String.length a) (a ^^ b) = b.
Proof. induction a as [|c a IH]; [reflexivity | exact IH]. Qed.

Lemma nonspace_run_prefix (s : string) :
  exists post, s = nonspace_run s ^^ post /\ More.at_space post = true.
Proof.
  induction s as [|c s [post [IH Hp]]].
  - now exists EmptyString.
  - cbn [nonspace_run]. destruct (is_space c) eqn:Hc.
    + exists (String c s). split; [reflexivity | exact Hc].
    + exists post. split; [simpl; now rewrite <- IH | exact Hp].
Qed.

Lemma nonspace_run_no_space (s : string) :
  More.no_space (nonspace_run s) = true.
Proof.
  induction s as [|c s IH]; [reflexivity|].
  cbn [nonspace_run]. destruct (is_space c) eqn:Hc; [reflexivity|].
  cbn [More.no_space]. now rewrite Hc, IH.
Qed.

Lemma no_space_append (a b : string) :
  More.no_space (a ^^ b) = More.no_space a && More.no_space b.
Proof.
  induction a as [|c a IH]; [reflexivity|].
  cbn [String.append More.no_space]. now rewrite IH, andb_assoc.
Qed.

(** What a match anchored at the head of a string looks like. *)
Lemma url_at_shape (s m : string) :
  url_at s = Some m ->
  exists scheme rest post,
    (scheme = "https://" \/ scheme = "http://")
    /\ m = scheme ^^ rest
    /\ Js.nonempty rest = true
    /\ More.no_space m = true
    /\ s = m ^^ post
    /\ More.at_space post = true.
Proof.
  assert (Hone : forall scheme,
             More.no_space scheme = true ->
             (if Js.startsWith s scheme
              then let run := nonspace_run (drop (String.length scheme) s) in
                   if Js.nonempty run then Some (scheme ^^ run) else None
              else None) = Some m ->
             exists rest post,
               m = scheme ^^ rest /\ Js.nonempty rest = true
               /\ More.no_space m = true /\ s = m ^^ post
               /\ More.at_space post = true).
  { intros scheme Hs H.
    destruct (Js.startsWith s scheme) eqn:Hp; [|discriminate H].
    apply startsWith_spec in Hp as [tail ->]. rewrite drop_append in H.
    cbv zeta in H.
    destruct (Js.nonempty (nonspace_run tail)) eqn:Hn; [|discriminate H].
    injection H as <-.
    destruct (nonspace_run_prefix tail) as [post [Htail Hpost]].
    exists (nonspace_run tail), post. repeat split; try assumption.
    - now rewrite no_space_append, Hs, nonspace_run_no_space.
    - now rewrite append_assoc, <- Htail. }
  unfold url_at. intros H.
  destruct (if Js.startsWith s "https://" then _ else None) as [m'|] eqn:Hs.
  - injection H as <-.
    destruct (Hone "https://" eq_refl Hs) as [rest [post Hr]].
    exists "https://", rest, post. tauto.
  - destruct (Hone "http://" eq_refl H) as [rest [post Hr]].
    exists "http://", rest, post. tauto.
Qed.

Lemma scan_urls_sound (s : string) (skip : nat) (m : string) :
  In m (scan_urls s skip) ->
  exists pre post, s = pre ^^ m ^^ post /\ url_at (m ^^ post) = Some m.
Proof.
  revert skip. induction s as [|c s IH]; intros skip Hin; [now destruct Hin|].
  assert (Hlater : forall k, In m (scan_urls s k) ->
                     exists pre post, String c s = pre ^^ m ^^ post
                                      /\ url_at (m ^^ post) = Some m).
  { intros k Hk. destruct (IH k Hk) as [pre [post [-> Hu]]].
    now exists (String c pre), post. }
  cbn [scan_urls] in Hin. destruct skip as [|k]; [|now apply (Hlater k)].
  destruct (url_at (String c s)) as [m'|] eqn:Hu; [|now apply (Hlater O)].
  destruct Hin as [<-|Hin]; [|now apply (Hlater (String.length m' - 1)%nat)].
  destruct (url_at_shape _ _ Hu) as [_ [_ [post [_ [_ [_ [_ [Hs _]]]]]]]].
  exists EmptyString, post. split; [exact Hs | now rewrite <- Hs].
Qed.

End TextFacts.

(** X5.  Every URL the regular expression finds in a text is a substring
    of the text that begins with [http://] or [https://] (in lower case),
    has at least one code unit after the scheme, holds no white space, and
    is greedy: it ends where the text ends or white space begins.  No URL
    found in a text begins with [mailto:] or [#], so the filter of the link
    loop never discards a link that comes from the text body. *)
Theorem match_urls_sound (text m : string) :
  In m (match_urls text) ->
  (exists pre post, text = pre ^^ m ^^ post /\ More.at_space post = true)
  /\ (exists rest, (m = "https://" ^^ rest \/ m = "http://" ^^ rest)
                   /\ Js.nonempty rest = true)
  /\ More.no_space m = true
  /\ Spec.discarded m = false.
Proof.
  intros Hin. unfold match_urls in Hin.
  destruct (scan_urls_sound text O m Hin) as [pre [post [Htext Hu]]].
  destruct (url_at_shape _ _ Hu)
    as [scheme [rest [post' [Hscheme [Hm [Hrest [Hns [Hs Hpost]]]]]]]].
  assert (post' = post) as ->.
  { revert Hs. clear. revert post post'.
    induction m as [|c m IH]; intros post post' H; simpl in H;
      [now symmetry|]. injection H as H. now apply IH. }
  split; [now exists pre, post|]. split; [|split; [exact Hns|]].
  - exists rest. split; [|exact Hrest]. destruct Hscheme; subst; tauto.
  - destruct Hscheme; subst; reflexivity.
Qed.

Lemma match_urls_sound_witness :
  More.no_space "https://host/page.html," = true
  /\ Spec.discarded "https://host/page.html," = false.
Proof.
  destruct (match_urls_sound
              "see https://host/page.html, or mailto:a@b #top"
              "https://host/page.html,"
              ltac:(vm_compute; tauto)) as [_ [_ [Hns Hd]]].
  split; [exact Hns | exact Hd].
Defined.

(* ================================================================= *)
(** ** The harvested set and the loop over it *)

(** X6.  The HTML body comes first: the harvested set is the set of the
    HTML body alone, followed by the URLs of the text body that are not
    already in it, each once and in the order of the text.  A body that is
    missing or empty contributes nothing. *)
Theorem harvestLinks_html_first {P : Platform} (html text : option string) :
  harvestLinks html text
  = harvestLinks html None
    ++ Spec.first_occurrences (harvestLinks html None) (text_candidates text)
  /\ (Js.truthy_str text = false ->
      harvestLinks html text = harvestLinks html None)
  /\ (Js.truthy_str html = false ->
      harvestLinks html text
      = Spec.first_occurrences [] (text_candidates text))
  /\ (Js.truthy_str html = false -> Js.truthy_str text = false ->
      harvestLinks html text = []).
Proof.
  assert (Hsplit : harvestLinks html text
                   = harvestLinks html None
                     ++ Spec.first_occurrences (harvestLinks html None)
                          (text_candidates text)).
  { unfold harvestLinks at 1. cbv zeta. rewrite fold_Set_add. reflexivity. }
  assert (Htext : Js.truthy_str text = false -> text_candidates text = []).
  { intros H. unfold text_candidates, body. now rewrite H. }
  assert (Hhtml : Js.truthy_str html = false -> harvestLinks html None = []).
  { intros H. unfold harvestLinks, html_candidates, body. now rewrite H. }
  split; [exact Hsplit|]. split; [|split].
  - intros H. rewrite Hsplit, (Htext H). cbn. now rewrite app_nil_r.
  - intros H. now rewrite Hsplit, (Hhtml H).
  - intros H H'. now rewrite Hsplit, (Hhtml H), (Htext H').
Qed.

Lemma harvestLinks_html_first_witness :
  let P := Fixture.platform in
  @harvestLinks P (Some EmptyString) None = []
  /\ @harvestLinks P
       (Some "<a href=https://host/page.html>page</a>") (Some EmptyString)
     = @harvestLinks P (Some "<a href=https://host/page.html>page</a>") None.
Proof.
  intros P. split.
  - exact (proj2 (proj2 (proj2 (@harvestLinks_html_first P
                                  (Some EmptyString) None)))
             eq_refl eq_refl).
  - exact (proj1 (proj2 (@harvestLinks_html_first P
                    (Some "<a href=https://host/page.html>page</a>")
                    (Some EmptyString))) eq_refl).
Defined.

Section LoopFacts.

Context {P : Platform}.

Lemma links_loop_kept (links : list string) (h : trace) :
  links_loop links h = links_loop (More.kept links) h.
Proof.
  revert h. induction links as [|link rest IH]; intros h; [reflexivity|].
  unfold More.kept. cbn [filter]. fold (More.kept rest).
  destruct (Spec.discarded link) eqn:Hd; cbn [negb].
  - rewrite (links_loop_discard link rest h Hd). apply IH.
  - destruct (checkLinkForJson_total link h) as [v [es [Hc _]]].
    rewrite (links_loop_step link rest h v es Hd Hc).
    rewrite (links_loop_step link (More.kept rest) h v es Hd Hc).
    now rewrite IH.
Qed.

Lemma NoDup_firstn {A} (k : nat) (l : list A) :
  NoDup l -> NoDup (firstn k l).
Proof.
  revert l. induction k as [|k IH]; intros [|x l] H; cbn [firstn];
    try constructor.
  - inversion H as [|? ? Hx Hl]. intros Hin. apply Hx.
    now apply (firstn_incl k).
  - inversion H. now apply IH.
Qed.

Lemma firstn_shorter {A} (k : nat) (l : list A) :
  (List.length (firstn k l) <= List.length l)%nat.
Proof.
  revert l. induction k as [|k IH]; intros [|x l]; cbn [firstn List.length];
    try lia. specialize (IH l). lia.
Qed.

Lemma harvestLinks_NoDup (html text : option string) :
  NoDup (harvestLinks html text).
Proof.
  rewrite harvestLinks_first_occurrences. apply first_occurrences_NoDup.
Qed.

End LoopFacts.

(** X7.  The link strategies run as if the discarded links had never been
    harvested: dropping from the set the links that begin with [mailto:]
    or [#] changes neither the result nor one event of the run. *)
Theorem discarded_links_leave_no_trace {P : Platform}
    (html text : option string) (h : trace) :
  extractJsonFromLinks html text h
  = links_loop (More.kept (harvestLinks html text)) h.
Proof. unfold extractJsonFromLinks. apply links_loop_kept. Qed.

(** X8.  No link is resolved twice: in a run of the link strategies the
    GETs of the resolver go to distinct URLs, and there are no more of
    them than links kept from the harvested set. *)
Theorem resolver_once_per_link {P : Platform}
    (html text : option string) (h : trace) :
  let resolved := requests AnyStatus5s
                    (events_of (extractJsonFromLinks html text h)) in
  NoDup resolved
  /\ (List.length resolved
      <= List.length (More.kept (harvestLinks html text)))%nat.
Proof.
  cbv zeta. unfold extractJsonFromLinks.
  destruct (links_loop_total (harvestLinks html text) h)
    as [v [es [-> [k Hk]]]].
  unfold events_of. cbn [snd]. rewrite Hk. fold (More.kept (harvestLinks html text)).
  split.
  - apply NoDup_firstn, NoDup_filter, harvestLinks_NoDup.
  - apply firstn_shorter.
Qed.

(* ================================================================= *)
(** ** The chase *)

Section ChaseFacts.

Context {P : Platform}.

Lemma add_hrefs_length (hrefs : list (option string)) :
  (List.length (add_hrefs [] hrefs) <= List.length hrefs)%nat.
Proof.
  assert (H : forall acc, (List.length (add_hrefs acc hrefs)
                           <= List.length acc + List.length hrefs)%nat).
  { unfold add_hrefs. induction hrefs as [|href hrefs IH]; intros acc;
      cbn [fold_left List.length]; [lia|].
    match goal with |- (List.length (fold_left _ _ ?a) <= _)%nat =>
      specialize (IH a); assert (List.length a <= S (List.length acc))%nat
    end.
    { destruct (Js.truthy_str href); [|lia]. destruct href as [x|]; [|lia].
      unfold Set_add. destruct (existsb _ acc); [lia|].
      rewrite length_app. cbn. lia. }
    lia. }
  apply (H []).
Qed.

Lemma page_candidates_length (baseUrl : string) (links : list string) :
  (List.length (Spec.page_candidates baseUrl links) <= List.length links)%nat.
Proof.
  unfold Spec.page_candidates. induction links as [|link rest IH];
    cbn [flat_map List.length]; [lia|].
  rewrite length_app.
  destruct (URL_resolve link baseUrl) as [u|e]; [|cbn; lia].
  destruct (looks_like_json u); cbn; lia.
Qed.

Lemma page_loop_candidates (baseUrl : string) (links : list string)
    (h : trace) :
  page_loop baseUrl links h
  = More.candidates_loop (Spec.page_candidates baseUrl links) h.
Proof.
  revert h. induction links as [|link rest IH]; intros h; [reflexivity|].
  cbn [page_loop Spec.page_candidates flat_map].
  fold (Spec.page_candidates baseUrl rest).
  destruct (URL_resolve link baseUrl) as [u|e]; [|apply IH].
  destruct (looks_like_json u); [|apply IH].
  cbn [app More.candidates_loop]. unfold bind.
  destruct (tryIndirectLink u h) as [[[v|]|e] es]; try reflexivity.
  now rewrite IH.
Qed.

End ChaseFacts.

(** X9.  The chaser accepts a candidate only on status 200 with a JSON
    content-type or a body whose type is object.  A candidate answered with
    another status (another 2xx included, whatever its content-type and
    body), or with status 200 but neither of the two, is passed over and
    the chase goes on with the next link of the page. *)
Theorem chaser_passes_over {P : Platform}
    (baseUrl link : string) (rest : list string) (h : trace)
    (u : string) (r : response)
    (Hu : URL_resolve link baseUrl = Ok u)
    (Hj : looks_like_json u = true)
    (Hnet : network (h ++ [Run.checking_indirect u]) u = Ok r)
    (Hno : status r <> 200
           \/ (Js.includes (header_or_empty (content_type r))
                 "application/json" = false
               /\ typeof_is_object (data r) = false)) :
  page_loop baseUrl (link :: rest) h
  = let tried := [Run.checking_indirect u; HttpGet Timeout5s u] in
    let (res, es) := page_loop baseUrl rest (h ++ tried) in
    (res, tried ++ es).
Proof.
  rewrite (page_loop_step baseUrl link u rest h Hu Hj).
  unfold Run.page_answer. rewrite Hnet.
  assert (Ha : page_accepts r = false).
  { unfold page_accepts. destruct Hno as [Hs|[Hc Ht]].
    - apply Z.eqb_neq in Hs. now rewrite Hs.
    - rewrite Hc, Ht. apply andb_false_r. }
  now rewrite Ha.
Qed.

Lemma chaser_passes_over_witness :
  let created := {| status := 201; content_type := Some "application/json";
                    data := JObj [("ok", JBool true)] |} in
  @page_loop (More.constant_web created) "https://host/page.html"
    ["/assets/out.json"] []
  = (Ok JNull, [Run.checking_indirect "https://host/assets/out.json";
                HttpGet Timeout5s "https://host/assets/out.json"]).
Proof.
  intros created.
  assert (Hu : @URL_resolve (More.constant_web created)
                 "/assets/out.json" "https://host/page.html"
               = Ok "https://host/assets/out.json")
    by (vm_compute; reflexivity).
  assert (Hj : looks_like_json "https://host/assets/out.json" = true)
    by (vm_compute; reflexivity).
  assert (Hs : status created <> 200) by (vm_compute; discriminate).
  rewrite (@chaser_passes_over (More.constant_web created)
             "https://host/page.html" "/assets/out.json" [] []
             "https://host/assets/out.json" created
             Hu Hj eq_refl (or_introl Hs)).
  reflexivity.
Defined.

(** X10.  The search goes one hop and no further.  For one link, the
    resolver issues one GET to the link; if the answer is an HTML page, the
    GETs that follow go to candidates of that page, in the order of the
    page, and to nothing else: a page behind a candidate is never chased.
    So a link costs at most one GET plus one per anchor of its page. *)
Theorem resolver_one_hop {P : Platform} (u : string) (h : trace) :
  let fetched := all_requests (events_of (checkLinkForJson u h)) in
  let candidates :=
    match Run.link_completion h u with
    | ReturnChase page =>
        Spec.page_candidates u (add_hrefs [] (anchor_hrefs page))
    | _ => []
    end in
  (exists k, fetched = u :: firstn k candidates)
  /\ (List.length fetched
      <= 1 + match Run.link_completion h u with
             | ReturnChase page => List.length (anchor_hrefs page)
             | _ => 0
             end)%nat.
Proof.
  cbv zeta. rewrite checkLinkForJson_run.
  destruct (link_events_requests h u) as [_ Hall].
  destruct (Run.link_completion h u) as [v|page|].
  - unfold events_of. cbn [snd]. rewrite Hall.
    split; [now exists O | cbn; lia].
  - unfold extractJsonFromHtmlPage.
    destruct (page_loop_total u (add_hrefs [] (anchor_hrefs page))
                (h ++ Run.link_events h u)) as [v [es [-> [_ [k Hk]]]]].
    unfold events_of. cbn [snd]. rewrite all_requests_app, Hall, Hk.
    split; [now exists k|]. cbn [app List.length].
    pose proof (firstn_shorter k
                  (Spec.page_candidates u (add_hrefs [] (anchor_hrefs page)))).
    pose proof (page_candidates_length u (add_hrefs [] (anchor_hrefs page))).
    pose proof (add_hrefs_length (anchor_hrefs page)). lia.
  - unfold events_of. cbn [snd]. rewrite Hall.
    split; [now exists O | cbn; lia].
Qed.

(** X11.  The chase depends on the links of a page only through its
    candidates: two pages whose links resolve to the same candidates, in
    the same order, are chased alike, whatever other links they hold. *)
Theorem chase_depends_on_candidates {P : Platform}
    (baseUrl baseUrl' : string) (links links' : list string) (h : trace) :
  Spec.page_candidates baseUrl links = Spec.page_candidates baseUrl' links' ->
  page_loop baseUrl links h = page_loop baseUrl' links' h.
Proof.
  intros H. now rewrite !page_loop_candidates, H.
Qed.

Lemma chase_depends_on_candidates_witness :
  let P := Fixture.platform in
  @page_loop P "https://host/chase.html"
    ["http://["; "/assets/out.json"] []
  = @page_loop P "https://host/page.html" ["/assets/out.json"] [].
Proof.
  intros P.
  exact (@chase_depends_on_candidates P
           "https://host/chase.html" "https://host/page.html"
           ["http://["; "/assets/out.json"] ["/assets/out.json"] []
           eq_refl).
Defined.

(* ================================================================= *)
(** ** Exhausting the links *)

Section ExhaustFacts.

Context {P : Platform}.

Lemma checkLinkForJson_failed (u : string) (h : trace) (e : exn) :
  network (h ++ [Run.checking u]) u = Throw e ->
  checkLinkForJson u h
  = (Ok JNull, [Run.checking u; HttpGet AnyStatus5s u; Run.failed u e]).
Proof.
  intros Hnet. rewrite checkLinkForJson_run.
  unfold Run.link_completion, Run.link_events. now rewrite Hnet.
Qed.

Lemma links_loop_offline (links : list string) (h : trace) :
  More.offline P ->
  exists es,
    links_loop links h = (Ok JNull, es)
    /\ requests AnyStatus5s es = More.kept links
    /\ all_requests es = More.kept links.
Proof.
  intros Hoff. revert h. induction links as [|link rest IH]; intros h.
  - now exists [].
  - unfold More.kept. cbn [filter]. fold (More.kept rest).
    destruct (Spec.discarded link) eqn:Hd; cbn [negb].
    + rewrite (links_loop_discard link rest h Hd). apply IH.
    + destruct (Hoff (h ++ [Run.checking link]) link) as [e Hnet].
      rewrite (links_loop_step link rest h _ _ Hd
                 (checkLinkForJson_failed link h e Hnet)).
      cbn [truthy].
      destruct (IH (h ++ [Run.checking link; HttpGet AnyStatus5s link;
                          Run.failed link e])) as [es [-> [Hr Ha]]].
      eexists. split; [reflexivity|].
      unfold Run.checking, Run.failed. cbn [app requests all_requests].
      now rewrite Hr, Ha.
Qed.

End ExhaustFacts.

(** X12.  When every GET fails at the transport, the link strategies
    report no match after trying every kept link of the harvested set
    exactly once, in the order of the set, and nothing else: no link is
    given up early and none is retried. *)
Theorem offline_every_link_tried {P : Platform} (Hoff : More.offline P)
    (html text : option string) (h : trace) :
  let run := extractJsonFromLinks html text h in
  result_of run = Ok JNull
  /\ requests AnyStatus5s (events_of run)
     = More.kept (harvestLinks html text)
  /\ all_requests (events_of run) = More.kept (harvestLinks html text).
Proof.
  cbv zeta. unfold extractJsonFromLinks.
  destruct (links_loop_offline (harvestLinks html text) h Hoff)
    as [es [-> [Hr Ha]]].
  now repeat split.
Qed.

Lemma offline_every_link_tried_witness :
  let html := Some "<a href=mailto:ops@host>ops</a><a href=#top>top</a><a href=https://host/file.json>file</a>" in
  let text := Some "or https://host/page.html" in
  requests AnyStatus5s
    (events_of (@extractJsonFromLinks More.unplugged html text []))
  = ["https://host/file.json"; "https://host/page.html"].
Proof.
  intros html text.
  assert (Hoff : More.offline More.unplugged)
    by (intros h u; eexists; reflexivity).
  rewrite (proj1 (proj2 (@offline_every_link_tried More.unplugged Hoff
                           html text []))).
  vm_compute. reflexivity.
Defined.

(* ================================================================= *)
(** ** Attachments that do not count *)

Section AttachmentFacts.

Context {P : Platform}.

Lemma first_parsable_value_filter (atts : list Attachment) :
  Spec.first_parsable_value (filter isJsonAttachment atts)
  = Spec.first_parsable_value atts.
Proof.
  unfold Spec.first_parsable_value.
  induction atts as [|a rest IH]; [reflexivity|].
  cbn [filter find]. destruct (isJsonAttachment a) eqn:Ha; cbn [andb].
  - cbn [find]. rewrite Ha. cbn [andb].
    now destruct (Spec.parsable a).
  - exact IH.
Qed.

Lemma parse_warnings_filter (atts : list Attachment) :
  Spec.parse_warnings (filter isJsonAttachment atts)
  = Spec.parse_warnings atts.
Proof.
  induction atts as [|a rest IH]; [reflexivity|].
  cbn [filter Spec.parse_warnings]. destruct (isJsonAttachment a) eqn:Ha.
  - cbn [Spec.parse_warnings]. rewrite Ha.
    destruct (Spec.parse_attachment a); [reflexivity | now rewrite IH].
  - exact IH.
Qed.

End AttachmentFacts.

(** X13.  Attachments that are not classified as JSON candidates have no
    part in the attachment strategy: removing them from the message
    changes neither its result nor its warnings, and their content is
    never parsed.  A message without a classified attachment gets no match
    and no warning. *)
Theorem unclassified_attachments_ignored {P : Platform}
    (parsed : ParsedMail) (h : trace) :
  extractJsonFromAttachments parsed h
  = extractJsonFromAttachments
      {| attachments := filter isJsonAttachment (attachments parsed);
         html := html parsed; text := text parsed |} h
  /\ ((forall a, In a (attachments parsed) -> isJsonAttachment a = false) ->
      extractJsonFromAttachments parsed h = (Ok JNull, [])).
Proof.
  rewrite !extractJsonFromAttachments_run. cbn [attachments]. split.
  - now rewrite first_parsable_value_filter, parse_warnings_filter.
  - intros Hnone.
    rewrite <- first_parsable_value_filter, <- parse_warnings_filter.
    replace (filter isJsonAttachment (attachments parsed)) with
      (@nil Attachment); [reflexivity|].
    induction (attachments parsed) as [|a rest IH]; [reflexivity|].
    cbn [filter]. rewrite (Hnone a (or_introl eq_refl)).
    apply IH. intros b Hb. apply Hnone. now right.
Qed.

Lemma unclassified_attachments_ignored_witness :
  @extractJsonFromAttachments Fixture.platform
    {| attachments := [Fixture.picture; Fixture.picture];
       html := None; text := None |} []
  = (Ok JNull, []).
Proof.
  apply (proj2 (@unclassified_attachments_ignored Fixture.platform
                  {| attachments := [Fixture.picture; Fixture.picture];
                     html := None; text := None |} [])).
  intros a [<-|[<-|[]]]; reflexivity.
Defined.

(* ================================================================= *)
(** ** Nothing to search, and values that do not count *)

Section EdgeFacts.

Context {P : Platform}.

Lemma no_candidate_scan (atts : list Attachment) :
  (forall a, In a atts -> isJsonAttachment a = false) ->
  Spec.first_parsable_value atts = JNull /\ Spec.parse_warnings atts = [].
Proof.
  intros Hnone.
  rewrite <- first_parsable_value_filter, <- parse_warnings_filter.
  replace (filter isJsonAttachment atts) with (@nil Attachment);
    [now split|].
  induction atts as [|a rest IH]; [reflexivity|].
  cbn [filter]. rewrite (Hnone a (or_introl eq_refl)).
  apply IH. intros b Hb. apply Hnone. now right.
Qed.

Lemma harvestLinks_no_body (html text : option string) :
  Js.truthy_str html = false -> Js.truthy_str text = false ->
  harvestLinks html text = [].
Proof.
  intros Hh Ht.
  unfold harvestLinks, html_candidates, text_candidates, body.
  now rewrite Hh, Ht.
Qed.

End EdgeFacts.

(** X14.  A message with no attachment classified as a JSON candidate and
    no usable body (the HTML body is [false] or empty, the text body is
    [undefined] or empty) ends in "not found" after the two log lines of
    the strategies: nothing is parsed, nothing is fetched. *)
Theorem nothing_to_search {P : Platform}
    (source : string) (h : trace) (bytes : string) (parsed : ParsedMail)
    (es0 : trace)
    (Hget : getEmailContent source (h ++ [Run.processing source])
            = (Ok bytes, es0))
    (Hparse : simpleParser bytes = Ok parsed)
    (Hnone : forall a, In a (attachments parsed) ->
                       isJsonAttachment a = false)
    (Hhtml : Js.truthy_str (html parsed) = false)
    (Htext : Js.truthy_str (text parsed) = false) :
  processEmail source h
  = (Throw Run.no_json_found,
     Run.processing source
       :: es0 ++ [Run.checking_attachments; Run.checking_links]).
Proof.
  destruct (no_candidate_scan (attachments parsed) Hnone) as [Hv Hw].
  destruct (processEmail_by_attachment source h bytes parsed es0 Hget Hparse)
    as [_ Hlinks].
  rewrite Hv, Hw in Hlinks. destruct (Hlinks eq_refl) as [l [es [Hl ->]]].
  unfold extractJsonFromLinks in Hl.
  rewrite (harvestLinks_no_body _ _ Hhtml Htext) in Hl.
  injection Hl as <- <-. cbn [truthy app].
  now rewrite <- app_assoc.
Qed.

Lemma nothing_to_search_witness :
  @processEmail Fixture.platform "test/fixtures/empty.eml" []
  = (Throw Run.no_json_found,
     [Run.processing "test/fixtures/empty.eml";
      FsExists "test/fixtures/empty.eml"; FsRead "test/fixtures/empty.eml";
      Run.checking_attachments; Run.checking_links]).
Proof.
  assert (Hget : @getEmailContent Fixture.platform "test/fixtures/empty.eml"
                   ([] ++ [Run.processing "test/fixtures/empty.eml"])
                 = (Ok "empty.eml", [FsExists "test/fixtures/empty.eml";
                                     FsRead "test/fixtures/empty.eml"]))
    by (vm_compute; reflexivity).
  assert (Hparse : @simpleParser Fixture.platform "empty.eml"
                   = Ok {| attachments := []; html := None; text := None |})
    by (vm_compute; reflexivity).
  exact (@nothing_to_search Fixture.platform "test/fixtures/empty.eml" []
           "empty.eml" _ _ Hget Hparse
           (fun a (Ha : In a []) => match Ha with end) eq_refl eq_refl).
Defined.

(** X15.  A link whose answer has status 200 and a JSON content-type but a
    falsy body ([null], [false], 0 or the empty string) is resolved to that
    body, which the loop of the link strategies takes for "no match": the
    search goes on with the next link, without chasing anything. *)
Theorem falsy_link_value_is_no_match {P : Platform}
    (link : string) (rest : list string) (h : trace) (r : response)
    (Hkept : Spec.discarded link = false)
    (Hnet : network (h ++ [Run.checking link]) link = Ok r)
    (Hstatus : status r = 200)
    (Hct : Js.includes (header_or_empty (content_type r)) "application/json"
           = true)
    (Hfalsy : truthy (data r) = false) :
  checkLinkForJson link h
  = (Ok (data r), [Run.checking link; HttpGet AnyStatus5s link])
  /\ links_loop (link :: rest) h
     = let tried := [Run.checking link; HttpGet AnyStatus5s link] in
       let (res, es) := links_loop rest (h ++ tried) in
       (res, tried ++ es).
Proof.
  assert (Hc : checkLinkForJson link h
               = (Ok (data r), [Run.checking link;
                                HttpGet AnyStatus5s link])).
  { rewrite checkLinkForJson_run.
    unfold Run.link_completion, Run.link_events, direct_json.
    now rewrite Hnet, Hstatus, Hct. }
  split; [exact Hc|].
  now rewrite (links_loop_step link rest h _ _ Hkept Hc), Hfalsy.
Qed.

Lemma falsy_link_value_is_no_match_witness :
  let zero := {| status := 200; content_type := Some "application/json";
                 data := JNum 0 |} in
  @links_loop (More.constant_web zero) ["https://host/zero.json"] []
  = (Ok JNull, [Run.checking "https://host/zero.json";
                HttpGet AnyStatus5s "https://host/zero.json"]).
Proof.
  intros zero.
  assert (Hct : Js.includes (header_or_empty (content_type zero))
                  "application/json" = true) by (vm_compute; reflexivity).
  rewrite (proj2 (@falsy_link_value_is_no_match (More.constant_web zero)
                    "https://host/zero.json" [] [] zero
                    eq_refl eq_refl eq_refl Hct eq_refl)).
  reflexivity.
Defined.

(* ================================================================= *)
(** ** A text that is one URL *)

Section SingleUrl.

Lemma nonspace_run_all (s : string) :
  More.no_space s = true -> nonspace_run s = s.
Proof.
  induction s as [|c s IH]; [reflexivity|]. cbn [More.no_space nonspace_run].
  intros H. apply andb_true_iff in H as [Hc Hs].
  apply negb_true_iff in Hc. now rewrite Hc, (IH Hs).
Qed.

Lemma scan_urls_skipped (s : string) (k : nat) :
  (String.length s <= k)%nat -> scan_urls s k = [].
Proof.
  revert k. induction s as [|c s IH]; intros k Hk; [reflexivity|].
  cbn [scan_urls]. cbn [String.length] in Hk.
  destruct k as [|k]; [lia|]. apply IH. lia.
Qed.

Lemma url_at_https (rest : string) :
  Js.nonempty rest = true -> More.no_space rest = true ->
  url_at ("https://" ^^ rest) = Some ("https://" ^^ rest).
Proof.
  intros Hn Hs. unfold url_at.
  assert (Hp : Js.startsWith ("https://" ^^ rest) "https://" = true)
    by (apply startsWith_spec; now exists rest).
  now rewrite Hp, drop_append, (nonspace_run_all rest Hs), Hn.
Qed.

Lemma url_at_http (rest : string) :
  Js.nonempty rest = true -> More.no_space rest = true ->
  url_at ("http://" ^^ rest) = Some ("http://" ^^ rest).
Proof.
  intros Hn Hs. unfold url_at.
  assert (Hq : Js.startsWith ("http://" ^^ rest) "https://" = false)
    by reflexivity.
  assert (Hp : Js.startsWith ("http://" ^^ rest) "http://" = true)
    by (apply startsWith_spec; now exists rest).
  now rewrite Hq, Hp, drop_append, (nonspace_run_all rest Hs), Hn.
Qed.

End SingleUrl.

(** X17.  A text body that is exactly one URL (a scheme [http://] or
    [https://] followed by at least one code unit, none of them white
    space) is harvested as that URL and nothing else, and the link is then
    handed to the resolver as it is written. *)
Theorem single_url_text_harvested {P : Platform} (scheme rest : string)
    (Hscheme : scheme = "https://" \/ scheme = "http://")
    (Hrest : Js.nonempty rest = true)
    (Hclean : More.no_space rest = true) :
  match_urls (scheme ^^ rest) = [scheme ^^ rest]
  /\ harvestLinks None (Some (scheme ^^ rest)) = [scheme ^^ rest]
  /\ forall h, extractJsonFromLinks None (Some (scheme ^^ rest)) h
               = links_loop [scheme ^^ rest] h.
Proof.
  assert (Hm : match_urls (scheme ^^ rest) = [scheme ^^ rest]).
  { unfold match_urls.
    assert (Hat : url_at (scheme ^^ rest) = Some (scheme ^^ rest))
      by (destruct Hscheme; subst;
          [now apply url_at_https | now apply url_at_http]).
    destruct (scheme ^^ rest) as [|c s] eqn:Hs.
    - destruct Hscheme; subst; discriminate Hs.
    - cbn [scan_urls]. rewrite Hat. f_equal.
      apply scan_urls_skipped. cbn [String.length]. lia. }
  assert (Hh : harvestLinks None (Some (scheme ^^ rest)) = [scheme ^^ rest]).
  { unfold harvestLinks, html_candidates, text_candidates, body.
    cbn [Js.truthy_str add_hrefs fold_left].
    assert (Hne : Js.nonempty (scheme ^^ rest) = true)
      by (destruct Hscheme; subst; reflexivity).
    rewrite Hne, Hm. reflexivity. }
  split; [exact Hm|]. split; [exact Hh|].
  intros h. unfold extractJsonFromLinks. now rewrite Hh.
Qed.

Lemma single_url_text_harvested_witness :
  @harvestLinks Fixture.platform None (Some "https://host/file.json")
  = ["https://host/file.json"].
Proof.
  exact (proj1 (proj2 (@single_url_text_harvested Fixture.platform
                         "https://" "host/file.json"
                         (or_introl eq_refl) eq_refl eq_refl))).
Defined.
